(** * poem.cli: the listing commands of the POEM command line interface

    A shallow embedding of [src/poem/cli.py].  Python strings are
    modelled as [string] (text over code points below 256, compared
    lexicographically by code point as Python does; the one operation
    of the module that leaves this range, capitalizing the micro sign or
    y with diaeresis, gives a field marked as such), the registries
    ([dict] objects keyed by name) as [gmap string _], Python sets as
    [gset string], integer indices as [Z] so that the [-1] of
    [str.find] and the negative bounds of a slice are the ones the code
    computes.  What a command writes or registers is recorded as a
    trace of effects. *)

From Stdlib Require Import ZArith Ascii String List.
From stdpp Require Import gmap strings list fin_maps sorting pretty.

Local Open Scope Z_scope.
#[local] Set Warnings "-clear-no-such-hyp".

(** ** Python string primitives *)

Module Py.

(** [len(s)] as an integer. *)
Definition len (s : string) : Z := Z.of_nat (String.length s).

(** [s.find(c)] for a one-character needle: the index of the first
    occurrence, [-1] when there is none. *)
Fixpoint find_from (c : ascii) (s : string) (i : Z) : Z :=
  match s with
  | EmptyString => -1
  | String a s' => if Ascii.eqb a c then i else find_from c s' (i + 1)
  end.

Definition find (c : ascii) (s : string) : Z := find_from c s 0.

(** Bound adjustment of a slice [s[a:b]]: a negative bound counts from
    the end, then both bounds are clamped to [0 .. len s]. *)
Definition adjust (n i : Z) : Z :=
  if i <? 0 then Z.max 0 (i + n) else Z.min i n.

(** [s[a:b]]; never raises, empty when the adjusted bounds cross. *)
Definition slice (s : string) (a b : Z) : string :=
  let a' := adjust (len s) a in
  let b' := adjust (len s) b in
  String.substring (Z.to_nat a') (Z.to_nat (b' - a')) s.

(** The line boundaries of [str.splitlines] among code points below
    256: LF, VT, FF, CR, FS, GS, RS and NEL. *)
Definition is_linebreak (c : ascii) : bool :=
  let n := N_of_ascii c in
  ((10 <=? n) && (n <=? 13) || (28 <=? n) && (n <=? 30) || (n =? 133))%N.

Definition is_cr (c : ascii) : bool := (N_of_ascii c =? 13)%N.
Definition is_lf (c : ascii) : bool := (N_of_ascii c =? 10)%N.

(** [splitlines_acc cur s]: [cur] is the current line, reversed. *)
Fixpoint splitlines_acc (cur : string) (s : string) : list string :=
  match s with
  | EmptyString =>
      match cur with EmptyString => [] | _ => [String.rev cur] end
  | String c s' =>
      if is_linebreak c then
        match s' with
        | String c' s'' =>
            if is_cr c && is_lf c'
            then String.rev cur :: splitlines_acc EmptyString s''
            else String.rev cur :: splitlines_acc EmptyString s'
        | EmptyString => [String.rev cur]
        end
      else splitlines_acc (String c cur) s'
  end.

(** [s.splitlines()] (line ends dropped, CR LF one boundary). *)
Definition splitlines (s : string) : list string :=
  splitlines_acc EmptyString s.

(** [str.lower] of one character: the upper-case letters below 256 are
    A-Z and, but for the multiplication sign, 192-222. *)
Definition lower (c : ascii) : ascii :=
  let n := N_of_ascii c in
  if ((65 <=? n) && (n <=? 90)
      || (192 <=? n) && (n <=? 222) && negb (n =? 215))%N
  then ascii_of_N (n + 32) else c.

(** [str.title] of one character: a-z and, but for the division sign,
    224-254 have their capital 32 below; the sharp s (223) becomes [Ss];
    the capitals of the micro sign (181) and of y with diaeresis (255)
    are the code points 924 and 376, which [string] cannot hold: [None]. *)
Definition title (c : ascii) : option string :=
  let n := N_of_ascii c in
  if ((97 <=? n) && (n <=? 122)
      || (224 <=? n) && (n <=? 254) && negb (n =? 247))%N
  then Some (String (ascii_of_N (n - 32)) EmptyString)
  else if (n =? 223)%N then Some (String "S" (String "s" EmptyString))
  else if ((n =? 181) || (n =? 255))%N then None
  else Some (String c EmptyString).

Fixpoint map_string (f : ascii -> ascii) (s : string) : string :=
  match s with
  | EmptyString => EmptyString
  | String c s' => String (f c) (map_string f s')
  end.

(** [s.capitalize()]: the first character in title case, the others in
    lower case; [None] when the result has a code point above 255. *)
Definition capitalize (s : string) : option string :=
  match s with
  | EmptyString => Some EmptyString
  | String c s' =>
      match title c with
      | Some t => Some (String.append t (map_string lower s'))
      | None => None
      end
  end.

End Py.


(** ** Values, exceptions, generators *)

(** The two exceptions the listing code can run into. *)
Inductive exn := AttributeError | IndexError.

Inductive result (A : Type) :=
| Ok (a : A)
| Raise (e : exn).
Arguments Ok {A} a.
Arguments Raise {A} e.

(** A field of a row: a [str], or [None]; [StrWide] is a [str] with a
    code point above 255, which [string] cannot hold. *)
Inductive pyval :=
| Str (s : string)
| PyNone
| StrWide.

(** A row is a tuple of fields. *)
Definition row := list pyval.

(** What the listing code reads of a registry entry (a class or an
    instance): [value.__name__] ([None] here: the attribute is absent and
    the access raises [AttributeError]), [value.__doc__] ([None] here:
    Python's [None]) and [value.__class__.__doc__]. *)
Record component := {
  __name__ : option string;
  __doc__ : option string;
  __class__doc__ : option string;
}.

(** A generator run to its end: the rows it yielded, and the exception
    that stopped it, if one did. *)
Record generated (A : Type) := {
  yielded : list A;
  raised : option exn;
}.
Arguments yielded {A} g.
Arguments raised {A} g.

(** The loop of a generator function: one step per item, in order; the
    first step that raises ends the generator. *)
Fixpoint run_gen {A : Type} (steps : list (result A)) : generated A :=
  match steps with
  | [] => {| yielded := []; raised := None |}
  | Ok a :: rest =>
      let g := run_gen rest in
      {| yielded := a :: yielded g; raised := raised g |}
  | Raise e :: _ => {| yielded := []; raised := Some e |}
  end.

(** Tuples [(name, value)] of a [dict] compare by name: the names of a
    [dict] are distinct, so the values are never compared. *)
Definition item_le {V : Type} : relation (string * V) :=
  fun a b => String.le a.1 b.1.

#[global] Instance item_le_dec {V : Type} : RelDecision (@item_le V).
Proof. intros a b. unfold item_le. apply _. Defined.

#[global] Instance item_le_trans {V} : Transitive (@item_le V).
Proof. intros a b c. unfold item_le. apply transitivity. Qed.

#[global] Instance item_le_total {V} : Total (@item_le V).
Proof. intros a b. unfold item_le. apply total, _. Qed.

(** [sorted(d.items())]. *)
Definition sorted_items {V : Type} (d : gmap string V) : list (string * V) :=
  merge_sort item_le (map_to_list d).

(** [sorted(values)] for a set of strings. *)
Definition sorted_set (values : gset string) : list string :=
  merge_sort String.le (elements values).

(** [value.__doc__.splitlines()[0]]. *)
Definition first_line (doc : option string) : result string :=
  match doc with
  | None => Raise AttributeError
  | Some s =>
      match Py.splitlines s with
      | [] => Raise IndexError
      | line :: _ => Ok line
      end
  end.

(** ** The row projections *)

(** [line[1 + l: r - 4], line[r - 4: r]] with [l], [r] the results of
    [line.find('[')] and [line.find(']')]. *)
Definition author_year (line : string) : string * string :=
  let l := Py.find "[" line in
  let r := Py.find "]" line in
  (Py.slice line (1 + l) (r - 4), Py.slice line (r - 4) r).

(** [f'{author.capitalize()}{sep}{year}']. *)
Definition citation (author sep year : string) : pyval :=
  match Py.capitalize author with
  | Some capitalized => Str (capitalized +:+ sep +:+ year)
  | None => StrWide
  end.

(** The body of the loop of [_get_model_lines]. *)
Definition model_line (tablefmt name : string) (model : component)
  : result row :=
  match first_line (__doc__ model) with
  | Raise e => Raise e
  | Ok line =>
      let l := Py.find "[" line in
      let r := Py.find "]" line in
      if String.eqb tablefmt "rst" then
        Ok [Str name; Str (":class:`poem.models." +:+ name +:+ "`");
            Str (Py.slice line l (r + 2))]
      else if String.eqb tablefmt "github" then
        let '(author, year) := author_year line in
        Ok [Str name; Str ("`poem.models." +:+ name +:+ "`");
            citation author " *et al.*, " year]
      else
        let '(author, year) := author_year line in
        Ok [Str name; citation author ", " year]
  end.

Definition _get_model_lines (models_dict : gmap string component)
  (tablefmt : string) : generated row :=
  run_gen (map (fun '(name, model) => model_line tablefmt name model)
               (sorted_items models_dict)).

Definition opt_val (o : option string) : pyval :=
  match o with
  | Some s => Str s
  | None => PyNone
  end.

(** The body of the loop of [_get_lines].  In the [github] branch an
    [AttributeError] (no [__name__], or [__doc__] is [None]) is caught;
    the [IndexError] of an empty [__doc__] is not. *)
Definition get_line (tablefmt submodule name : string) (value : component)
  : result row :=
  if String.eqb tablefmt "rst" then
    Ok [Str name; Str (":class:`poem." +:+ submodule +:+ "." +:+ name +:+ "`")]
  else if String.eqb tablefmt "github" then
    let attempt :=
      match __name__ value with
      | None => Raise AttributeError
      | Some ref =>
          match first_line (__doc__ value) with
          | Ok doc => Ok (ref, Str doc)
          | Raise e => Raise e
          end
      end in
    match attempt with
    | Ok (ref, doc) =>
        Ok [Str name; Str ("`poem." +:+ submodule +:+ "." +:+ ref +:+ "`"); doc]
    | Raise AttributeError =>
        Ok [Str name; Str ("`poem." +:+ submodule +:+ "." +:+ name +:+ "`");
            opt_val (__class__doc__ value)]
    | Raise e => Raise e
    end
  else
    match first_line (__doc__ value) with
    | Ok doc => Ok [Str name; Str doc]
    | Raise e => Raise e
    end.

Definition _get_lines (d : gmap string component)
  (tablefmt submodule : string) : generated row :=
  run_gen (map (fun '(name, value) => get_line tablefmt submodule name value)
               (sorted_items d)).

(** ** Commands *)

(** What a command does to the outside: [click.echo(s)], or
    [click.echo(tabulate(lines, headers=headers, tablefmt=tablefmt))]
    (rendering is [tabulate]'s). *)
Inductive effect :=
| Echo (s : string)
| EchoTable (lines : list row) (headers : list string) (tablefmt : string).

(** A command: the effects it had, and whether it returned or raised. *)
Definition io (A : Type) : Type := list effect * result A.

#[global] Instance io_ret : MRet io := fun A a => ([], Ok a).

#[global] Instance io_bind : MBind io := fun A B f m =>
  match m with
  | (t, Ok a) => let '(t', r) := f a in (t ++ t', r)
  | (t, Raise e) => (t, Raise e)
  end.

Definition echo (s : string) : io unit := ([Echo s], Ok tt).

(** Consuming a generator ([list(gen)], or inside [tabulate]): its rows,
    or the exception that stopped it. *)
Definition consume {A : Type} (g : generated A) : io (list A) :=
  match raised g with
  | None => mret (yielded g)
  | Some e => ([], Raise e)
  end.

Definition echo_table (lines : list row) (headers : list string)
  (tablefmt : string) : io unit :=
  ([EchoTable lines headers tablefmt], Ok tt).

(** The headers of the non-model listings. *)
Definition listing_headers (tablefmt : string) : list string :=
  if String.eqb tablefmt "plain" then ["Name"; "Description"]
  else ["Name"; "Reference"; "Description"].

Definition model_headers (tablefmt : string) : list string :=
  if String.eqb tablefmt "rst" || String.eqb tablefmt "github"
  then ["Name"; "Reference"; "Citation"]
  else ["Name"; "Citation"].

(** The body shared by [datasets], [training], [samplers], [evaluators]
    and [metrics]. *)
Definition listing (d : gmap string component) (tablefmt submodule : string)
  : io unit :=
  lines ← consume (_get_lines d tablefmt submodule);
  echo_table lines (listing_headers tablefmt) tablefmt.

Section Commands.

(** The registries the module imports. *)
Variables models_dict data_sets training_dict samplers_dict
  evaluators_dict metrics_dict : gmap string component.

Definition models (tablefmt : string) : io unit :=
  lines ← consume (_get_model_lines models_dict tablefmt);
  echo_table lines (model_headers tablefmt) tablefmt.

Definition datasets (tablefmt : string) : io unit :=
  listing data_sets tablefmt "datasets".

Definition training (tablefmt : string) : io unit :=
  listing training_dict tablefmt "training".

Definition samplers (tablefmt : string) : io unit :=
  listing samplers_dict tablefmt "sampling".

Definition evaluators (tablefmt : string) : io unit :=
  listing evaluators_dict tablefmt "evaluators".

Definition metrics (tablefmt : string) : io unit :=
  listing metrics_dict tablefmt "evaluators".

Definition nl : string := String "010" EmptyString.

Definition github_readme : io unit :=
  echo ("### Models" +:+ nl) ;;
  models "github" ;;
  echo (nl +:+ "### Data Sets" +:+ nl) ;;
  datasets "github" ;;
  echo (nl +:+ "### Training Modes" +:+ nl) ;;
  training "github" ;;
  echo (nl +:+ "### Evaluators" +:+ nl) ;;
  evaluators "github" ;;
  echo (nl +:+ "### Metrics" +:+ nl) ;;
  metrics "github".

End Commands.

(** ** The [parameters] command *)

Section Parameters.

(** [BaseModule.__init__.__annotations__] (its names) and
    [BaseModule._hyperparameter_usage]. *)
Variable init_annotations : gset string.
Variable _hyperparameter_usage : gmap string (gset string).

Definition base_parameters : gset string := init_annotations ∪ {["init"]}.

Definition _hyperparemeter_usage : list (string * gset string) :=
  merge_sort item_le
    (filter (fun kv : string * gset string => kv.1 ∉ base_parameters)
            (map_to_list _hyperparameter_usage)).

(** [f'{i:>2}'] *)
Definition right2 (i : nat) : string :=
  let s := pretty i in
  if (String.length s <? 2)%nat then " " +:+ s else s.

(** The loop of [parameters], [i] the number of the next name. *)
Fixpoint echo_usage (i : nat) (usage : list (string * gset string))
  : list effect :=
  match usage with
  | [] => []
  | (name, values) :: usage' =>
      Echo (right2 i +:+ ". " +:+ name)
      :: map (fun value => Echo ("    - " +:+ value)) (sorted_set values)
      ++ echo_usage (S i) usage'
  end.

Definition parameters : io unit :=
  (Echo "Names of __init__() parameters in all classes:"
   :: echo_usage 1 _hyperparemeter_usage, Ok tt).

End Parameters.

(** ** Module start: the subcommands of [train] *)

Section Train.

(** [click] commands, and [poem.models.cli.build_cli_from_cls]. *)
Variable Command : Type.
Variable build_cli_from_cls : component -> Command.

(** What running the module does to the command tree. *)
Inductive startup :=
| AddCommand (group : string) (cmd : Command)
| CallMain.

(** [for cls in models_dict.values(): train.add_command(...)], the trace
    so far in [t]. *)
Fixpoint register (classes : list component) (t : list startup)
  : list startup :=
  match classes with
  | [] => t
  | cls :: classes' =>
      register classes' (t ++ [AddCommand "train" (build_cli_from_cls cls)])
  end.

(** The statements of the module after its definitions; [is_main] is
    [__name__ == '__main__'].  The classes come in the order of the
    items of the registry. *)
Definition module_body (models_dict : gmap string component)
  (is_main : bool) : list startup :=
  let t := register (map_to_list models_dict).*2 [] in
  if is_main then t ++ [CallMain] else t.

End Train.

(** ** The shapes of the statements *)

(** An entry whose [__doc__] is a string with at least one line. *)
Definition documented (v : component) : Prop :=
  ∃ s, __doc__ v = Some s ∧ s ≠ EmptyString.

(** The name field of a row. *)
Definition row_of (r : row) (name : string) : Prop := head r = Some (Str name).

(** One row per entry, ascending by name, no exception. *)
Definition one_row_per_entry (d : gmap string component) (g : generated row)
  : Prop :=
  raised g = None
  ∧ length (yielded g) = size d
  ∧ ∃ names : list string,
      Forall2 row_of (yielded g) names
      ∧ names ≡ₚ (map_to_list d).*1
      ∧ StronglySorted String.le names.

(** Five sections: a header and a [github] table each; the header of
    every section but the first starts with an empty line. *)
Definition five_sections (models_rows datasets_rows training_rows
    evaluators_rows metrics_rows : list row) : list effect :=
  [Echo ("### Models" +:+ nl);
   EchoTable models_rows ["Name"; "Reference"; "Citation"] "github";
   Echo (nl +:+ "### Data Sets" +:+ nl);
   EchoTable datasets_rows ["Name"; "Reference"; "Description"] "github";
   Echo (nl +:+ "### Training Modes" +:+ nl);
   EchoTable training_rows ["Name"; "Reference"; "Description"] "github";
   Echo (nl +:+ "### Evaluators" +:+ nl);
   EchoTable evaluators_rows ["Name"; "Reference"; "Description"] "github";
   Echo (nl +:+ "### Metrics" +:+ nl);
   EchoTable metrics_rows ["Name"; "Reference"; "Description"] "github"].

(** The lines of a numbered list of names, each with its users. *)
Fixpoint usage_lines (i : nat) (listing : list (string * list string))
  : list effect :=
  match listing with
  | [] => []
  | (name, users) :: listing' =>
      Echo (right2 i +:+ ". " +:+ name)
      :: map (λ user, Echo ("    - " +:+ user)) users
      ++ usage_lines (S i) listing'
  end.

(** No character of [s] is a line boundary. *)
Fixpoint no_linebreak (s : string) : bool :=
  match s with
  | EmptyString => true
  | String c s' => negb (Py.is_linebreak c) && no_linebreak s'
  end.

(** ** Sample entries *)

(** A class without a docstring (its type is [type]). *)
Definition undocumented_class : component :=
  {| __name__ := Some "M"; __doc__ := None;
     __class__doc__ := Some "type(object) -> the object's type" |}.

(** An instance of a class without a docstring. *)
Definition undocumented : component :=
  {| __name__ := None; __doc__ := None; __class__doc__ := None |}.

(** A model class with a reST citation reference in its first line. *)
Definition transe : component :=
  {| __name__ := Some "TransE";
     __doc__ := Some "An implementation of TransE [bordes2013]_.";
     __class__doc__ := Some "type(object) -> the object's type" |}.

(** A model class with a citation that ends its first line. *)
Definition smith_model : component :=
  {| __name__ := Some "Smith";
     __doc__ := Some "An implementation of Smith [smith2020]";
     __class__doc__ := Some "type(object) -> the object's type" |}.

(** A model class without a citation. *)
Definition plain_model : component :=
  {| __name__ := Some "Plain";
     __doc__ := Some "A model with no citation";
     __class__doc__ := None |}.

(** An instance of a documented class: no [__name__], no [__doc__] of
    its own. *)
Definition instance_of_documented_type : component :=
  {| __name__ := None; __doc__ := None;
     __class__doc__ := Some "An evaluator." |}.

(** * Properties *)

(** ** Strings *)

Example slice_neg : Py.slice "A model with no citation" (-5) (-1) = "atio".
Proof. reflexivity. Qed.

Example splitlines_ex :
  Py.splitlines ("ab" +:+ String "013" (String "010" "cd") +:+ String "010" "")
  = ["ab"; "cd"].
Proof. reflexivity. Qed.

Example capitalize_ex : Py.capitalize "sMITH" = Some "Smith".
Proof. reflexivity. Qed.

(** e acute, then [mile]: the capital is E acute. *)
Example capitalize_e_acute :
  Py.capitalize (String (ascii_of_N 233) "mile")
  = Some (String (ascii_of_N 201) "mile").
Proof. reflexivity. Qed.

(** The sharp s in front becomes [Ss]; E acute after the first character
    is lower-cased. *)
Example capitalize_sharp_s :
  Py.capitalize (String (ascii_of_N 223) (String (ascii_of_N 201) "X"))
  = Some (String "S" (String "s" (String (ascii_of_N 233) "x"))).
Proof. reflexivity. Qed.

(** The capital of y with diaeresis is not below 256. *)
Example capitalize_y_diaeresis :
  Py.capitalize (String (ascii_of_N 255) "ves") = None
  ∧ citation (String (ascii_of_N 255) "ves") ", " "2020" = StrWide.
Proof. split; reflexivity. Qed.

Lemma splitlines_acc_nil cur s :
  Py.splitlines_acc cur s = [] ↔ cur = EmptyString ∧ s = EmptyString.
Proof.
  revert cur. induction s as [|c s IH]; intros cur; simpl.
  - destruct cur; naive_solver.
  - destruct (Py.is_linebreak c).
    + destruct s as [|c' s']; [naive_solver|].
      destruct (Py.is_cr c && Py.is_lf c'); naive_solver.
    + rewrite IH. naive_solver.
Qed.

Lemma splitlines_nil s : Py.splitlines s = [] ↔ s = EmptyString.
Proof. unfold Py.splitlines. rewrite splitlines_acc_nil. naive_solver. Qed.

Lemma first_line_documented v :
  documented v → ∃ line, first_line (__doc__ v) = Ok line.
Proof.
  intros (s & -> & Hs). simpl.
  destruct (Py.splitlines s) as [|line ?] eqn:E; [|eauto].
  by apply splitlines_nil in E.
Qed.

Lemma first_line_raises doc e :
  first_line doc = Raise e →
  (doc = None ∧ e = AttributeError) ∨ (doc = Some EmptyString ∧ e = IndexError).
Proof.
  destruct doc as [s|]; simpl; [|naive_solver].
  destruct (Py.splitlines s) eqn:E; [|done].
  apply splitlines_nil in E. naive_solver.
Qed.

(** ** Generators *)

Lemma run_gen_ok {A B} (f : B → result A) (g : B → A) (items : list B) :
  Forall (λ x, f x = Ok (g x)) items →
  run_gen (map f items) = {| yielded := map g items; raised := None |}.
Proof.
  induction 1 as [|x items Hx _ IH]; simpl; [done|].
  by rewrite Hx, IH.
Qed.

Lemma run_gen_yielded {A B} (P : A → Prop) (f : B → result A) (items : list B) :
  (∀ x a, f x = Ok a → P a) →
  Forall P (yielded (run_gen (map f items))).
Proof.
  intros Hf. induction items as [|x items IH]; simpl; [constructor|].
  destruct (f x) eqn:E; simpl; [|constructor].
  constructor; eauto.
Qed.

Lemma run_gen_ext {A B} (f g : B → result A) (items : list B) :
  (∀ x, f x = g x) → run_gen (map f items) = run_gen (map g items).
Proof. intros E. f_equal. apply map_ext. auto. Qed.

(** ** Sorting the items of a [dict] *)

Lemma sorted_items_perm {V} (d : gmap string V) :
  sorted_items d ≡ₚ map_to_list d.
Proof. apply merge_sort_Permutation. Qed.

Lemma sorted_items_length {V} (d : gmap string V) :
  length (sorted_items d) = size d.
Proof. by rewrite sorted_items_perm, length_map_to_list. Qed.

Lemma sorted_items_lookup {V} (d : gmap string V) name v :
  (name, v) ∈ sorted_items d ↔ d !! name = Some v.
Proof. by rewrite sorted_items_perm, elem_of_map_to_list. Qed.

Lemma sorted_items_names_perm {V} (d : gmap string V) :
  (sorted_items d).*1 ≡ₚ (map_to_list d).*1.
Proof. by rewrite sorted_items_perm. Qed.

Lemma sorted_items_names_nodup {V} (d : gmap string V) :
  NoDup (sorted_items d).*1.
Proof. rewrite sorted_items_names_perm. apply NoDup_fst_map_to_list. Qed.

Lemma StronglySorted_fst {V} (l : list (string * V)) :
  StronglySorted item_le l → StronglySorted String.le l.*1.
Proof.
  induction 1 as [|a l _ IH Ha]; simpl; constructor; [done|].
  apply Forall_fmap. exact Ha.
Qed.

Lemma sorted_items_ascending {V} (d : gmap string V) :
  StronglySorted String.le (sorted_items d).*1.
Proof. apply StronglySorted_fst, StronglySorted_merge_sort; apply _. Qed.

Lemma ascending_unique {V} (l l' : list (string * V)) :
  NoDup l.*1 → l ≡ₚ l' →
  StronglySorted item_le l → StronglySorted item_le l' → l = l'.
Proof.
  intros Hnd Hq Hs. revert l' Hnd Hq.
  induction Hs as [|a l Hs IH Ha]; intros l' Hnd Hq Hs'.
  - by apply Permutation_nil_l in Hq.
  - destruct Hs' as [|b l' Hs' Hb].
    { by apply Permutation_nil_r in Hq. }
    rewrite fmap_cons in Hnd. apply NoDup_cons in Hnd as [Hn Hnd].
    assert (a = b) as <-.
    { assert (Hab : a ∈ b :: l') by (rewrite <- Hq; left).
      assert (Hba : b ∈ a :: l) by (rewrite Hq; left).
      apply elem_of_cons in Hab as [?|Hab]; [done|].
      apply elem_of_cons in Hba as [?|Hba]; [done|].
      rewrite Forall_forall in Ha, Hb.
      assert (a.1 = b.1) as E
        by (apply (anti_symm String.le); [apply Ha|apply Hb]; done).
      destruct Hn. rewrite E. by apply list_elem_of_fmap_2. }
    f_equal. apply IH; [done| |done].
    by apply Permutation_cons_inv in Hq.
Qed.

(** Any ascending listing of the items is the sorted one: the order in
    which the entries were put into the [dict] does not show. *)
Lemma sorted_items_unique {V} (d : gmap string V) (l : list (string * V)) :
  l ≡ₚ map_to_list d → Sorted item_le l → l = sorted_items d.
Proof.
  intros Hp Hs. apply ascending_unique.
  - rewrite Hp. apply NoDup_fst_map_to_list.
  - by rewrite sorted_items_perm.
  - apply Sorted_StronglySorted; [apply _|done].
  - apply StronglySorted_merge_sort; apply _.
Qed.

Lemma run_gen_Forall2 {A B} (P : A → B → Prop) (f : B → result A)
    (items : list B) :
  Forall (λ x, ∃ a, f x = Ok a ∧ P a x) items →
  raised (run_gen (map f items)) = None
  ∧ Forall2 P (yielded (run_gen (map f items))) items.
Proof.
  induction 1 as [|x items (a & Hx & HP) _ [IHr IHy]]; simpl.
  - split; [done|constructor].
  - rewrite Hx. simpl. split; [done|by constructor].
Qed.

(** ** The row projections *)

Lemma model_line_documented tablefmt name model :
  documented model →
  ∃ r, model_line tablefmt name model = Ok r ∧ row_of r name.
Proof.
  intros [line E]%first_line_documented. unfold model_line. rewrite E.
  destruct (author_year line) as [author year].
  destruct (String.eqb tablefmt "rst"); [by eexists|].
  destruct (String.eqb tablefmt "github"); by eexists.
Qed.

Lemma get_line_documented tablefmt submodule name value :
  documented value →
  ∃ r, get_line tablefmt submodule name value = Ok r ∧ row_of r name.
Proof.
  intros [line E]%first_line_documented. unfold get_line. rewrite E.
  destruct (String.eqb tablefmt "rst"); [by eexists|].
  destruct (String.eqb tablefmt "github"); [|by eexists].
  destruct (__name__ value); by eexists.
Qed.

Lemma get_line_arity tablefmt submodule name value r :
  tablefmt ≠ "rst" → tablefmt ≠ "github" →
  get_line tablefmt submodule name value = Ok r → length r = 2%nat.
Proof.
  intros H1%String.eqb_neq H2%String.eqb_neq. unfold get_line.
  rewrite H1, H2. destruct (first_line _); [|done].
  by intros [= <-].
Qed.

Lemma projection_one_row_per_entry (d : gmap string component)
    (f : string → component → result row) :
  (∀ name v, d !! name = Some v → ∃ r, f name v = Ok r ∧ row_of r name) →
  one_row_per_entry d
    (run_gen (map (λ '(name, v), f name v) (sorted_items d))).
Proof.
  intros Hf.
  destruct (run_gen_Forall2 (λ r (kv : string * component), row_of r kv.1)
              (λ '(name, v), f name v) (sorted_items d)) as [Hr Hy].
  { apply Forall_forall. intros [name v] Hin.
    apply sorted_items_lookup in Hin. by apply Hf. }
  split; [done|]. split.
  - apply Forall2_length in Hy. by rewrite Hy, sorted_items_length.
  - exists (sorted_items d).*1. split; [|split].
    + by apply Forall2_fmap_r.
    + apply sorted_items_names_perm.
    + apply sorted_items_ascending.
Qed.

Lemma documented_transe : documented transe.
Proof. eexists. split; [reflexivity|discriminate]. Qed.

Lemma documented_plain_model : documented plain_model.
Proof. eexists. split; [reflexivity|discriminate]. Qed.

(** C1, as stated, fails: a registry whose only entry is a class without
    a docstring has one entry, and its [plain] projection raises
    [AttributeError] before yielding a row. *)
Lemma projection_undocumented_entry :
  ¬ (∀ (d : gmap string component) (tablefmt submodule : string),
       one_row_per_entry d (_get_lines d tablefmt submodule)
       ∧ one_row_per_entry d (_get_model_lines d tablefmt)).
Proof.
  intros H.
  destruct (H {["m" := undocumented_class]} "plain" "datasets") as [[Hr _] _].
  vm_compute in Hr. discriminate.
Qed.

(** C1 (amended): for every registry whose entries each have a
    documentation string with at least one line, and every table format,
    both projections run to their end without an exception and yield
    exactly [len(d)] rows, one per entry, in ascending order of name. *)
Theorem projection_one_row_per_documented_entry
    (d : gmap string component) (tablefmt submodule : string) :
  map_Forall (λ _ v, documented v) d →
  one_row_per_entry d (_get_lines d tablefmt submodule)
  ∧ one_row_per_entry d (_get_model_lines d tablefmt).
Proof.
  intros Hd. split; apply projection_one_row_per_entry; intros name v Hv.
  - apply get_line_documented. by apply (Hd name).
  - apply model_line_documented. by apply (Hd name).
Qed.

Lemma projection_one_row_per_documented_entry_witness :
  let d : gmap string component :=
    <["TransE" := transe]> {["Plain" := plain_model]} in
  one_row_per_entry d (_get_lines d "unknown" "datasets")
  ∧ one_row_per_entry d (_get_model_lines d "unknown").
Proof.
  intros d.
  apply (projection_one_row_per_documented_entry d "unknown" "datasets").
  apply map_Forall_insert_2; [apply documented_transe|].
  apply map_Forall_singleton, documented_plain_model.
Defined.

(** C5: for a format that is neither [rst] nor [github], both
    projections give what they give for [plain] (rows and exception
    alike). *)
Theorem unknown_format_as_plain
    (d : gmap string component) (tablefmt submodule : string) :
  tablefmt ≠ "rst" → tablefmt ≠ "github" →
  _get_lines d tablefmt submodule = _get_lines d "plain" submodule
  ∧ _get_model_lines d tablefmt = _get_model_lines d "plain".
Proof.
  intros H1%String.eqb_neq H2%String.eqb_neq.
  split; apply run_gen_ext; intros [name v].
  - unfold get_line. by rewrite H1, H2.
  - unfold model_line. by rewrite H1, H2.
Qed.

Lemma unknown_format_as_plain_witness :
  let d : gmap string component :=
    <["TransE" := transe]> {["M" := undocumented_class]} in
  _get_lines d "simple" "training" = _get_lines d "plain" "training"
  ∧ _get_model_lines d "simple" = _get_model_lines d "plain".
Proof.
  intros d. apply (unknown_format_as_plain d "simple" "training"); discriminate.
Defined.

Example datasets_simple :
  datasets {["TransE" := transe]} "simple"
  = ([EchoTable
        [[Str "TransE"; Str "An implementation of TransE [bordes2013]_."]]
        ["Name"; "Reference"; "Description"] "simple"], Ok tt).
Proof. vm_compute. reflexivity. Qed.

(** C4: when the first documentation line of every model has neither
    '[' nor ']', the model projection raises nothing, whatever the
    format, and the [models] command returns. *)
Theorem models_without_brackets_do_not_raise
    (models_dict : gmap string component) (tablefmt : string) :
  map_Forall (λ _ model, ∃ line,
      first_line (__doc__ model) = Ok line
      ∧ Py.find "[" line = -1 ∧ Py.find "]" line = -1) models_dict →
  tablefmt = "plain" ∨ tablefmt = "rst" ∨ tablefmt = "github" →
  raised (_get_model_lines models_dict tablefmt) = None
  ∧ length (yielded (_get_model_lines models_dict tablefmt))
    = size models_dict
  ∧ (models models_dict tablefmt).2 = Ok tt.
Proof.
  intros Hd _.
  destruct (projection_one_row_per_entry models_dict (model_line tablefmt))
    as (Hr & Hl & _).
  { intros name v Hv. destruct (Hd name v Hv) as (line & E & _).
    unfold model_line. rewrite E.
    destruct (author_year line) as [author year].
    destruct (String.eqb tablefmt "rst"); [by eexists|].
    destruct (String.eqb tablefmt "github"); by eexists. }
  fold (_get_model_lines models_dict tablefmt) in Hr, Hl.
  split; [done|]. split; [done|].
  unfold models, consume. by rewrite Hr.
Qed.

Lemma models_without_brackets_do_not_raise_witness :
  let d : gmap string component := {["Plain" := plain_model]} in
  raised (_get_model_lines d "github") = None
  ∧ length (yielded (_get_model_lines d "github")) = size d
  ∧ (models d "github").2 = Ok tt.
Proof.
  intros d. apply (models_without_brackets_do_not_raise d "github").
  - apply map_Forall_singleton. exists "A model with no citation".
    repeat split; reflexivity.
  - right. right. reflexivity.
Defined.

(** The degenerate rows of the line without brackets. *)
Example plain_model_rows :
  model_line "plain" "Plain" plain_model
  = Ok [Str "Plain"; Str "A model with no cit, atio"]
  ∧ model_line "rst" "Plain" plain_model
    = Ok [Str "Plain"; Str ":class:`poem.models.Plain`"; Str ""]
  ∧ model_line "github" "Plain" plain_model
    = Ok [Str "Plain"; Str "`poem.models.Plain`";
          Str "A model with no cit *et al.*, atio"].
Proof. repeat split; vm_compute; reflexivity. Qed.

(** C6, as stated, fails: for an entry with neither its own nor its
    type's documentation the [github] projection raises nothing and
    yields a row whose third field is [None]; the [datasets] command
    passes that row on to [tabulate]. *)
Lemma github_both_docs_absent :
  ¬ (∀ (d : gmap string component) (submodule name : string) (v : component),
       d !! name = Some v →
       __doc__ v = None → __class__doc__ v = None →
       raised (_get_lines d "github" submodule) ≠ None
       ∧ Forall (λ r : row, PyNone ∉ r)
                (yielded (_get_lines d "github" submodule))).
Proof.
  intros H.
  destruct (H {["m" := undocumented]} "datasets" "m" undocumented)
    as [Hr _]; [by simplify_map_eq|done|done|].
  apply Hr. vm_compute. reflexivity.
Qed.

Example datasets_both_docs_absent :
  datasets {["m" := undocumented]} "github"
  = ([EchoTable [[Str "m"; Str "`poem.datasets.m`"; PyNone]]
                ["Name"; "Reference"; "Description"] "github"], Ok tt).
Proof. vm_compute. reflexivity. Qed.

Lemma get_line_github_total submodule name value :
  __doc__ value ≠ Some EmptyString →
  ∃ r, get_line "github" submodule name value = Ok r ∧ row_of r name.
Proof.
  intros Hne. unfold get_line. simpl.
  destruct (__name__ value) as [ref|]; [|by eexists].
  destruct (first_line (__doc__ value)) as [doc|e] eqn:E; [by eexists|].
  apply first_line_raises in E as [[_ ->]|[E _]]; [by eexists|done].
Qed.

Lemma get_line_github_fallback submodule name value :
  __doc__ value = None →
  get_line "github" submodule name value
  = Ok [Str name; Str ("`poem." +:+ submodule +:+ "." +:+ name +:+ "`");
        opt_val (__class__doc__ value)].
Proof.
  intros E. unfold get_line. simpl. rewrite E.
  by destruct (__name__ value).
Qed.

Lemma run_gen_elem_of {A B} (f : B → result A) (items : list B) x a :
  raised (run_gen (map f items)) = None →
  x ∈ items → f x = Ok a → a ∈ yielded (run_gen (map f items)).
Proof.
  induction items as [|y items IH]; simpl; [by intros _ ?%elem_of_nil|].
  destruct (f y) as [b|e] eqn:E; simpl; [|done].
  intros Hr [->|Hin]%elem_of_cons Hx.
  - rewrite Hx in E. injection E as ->. left.
  - right. by apply IH.
Qed.

(** ** Finding and slicing in a concatenation *)

Lemma append_cons c s t : String c s +:+ t = String c (s +:+ t).
Proof. reflexivity. Qed.

Lemma append_nil s : EmptyString +:+ s = s.
Proof. reflexivity. Qed.

Lemma len_cons c s : Py.len (String c s) = 1 + Py.len s.
Proof.
  unfold Py.len. change (String.length (String c s)) with (S (String.length s)).
  lia.
Qed.

Lemma len_append s t : Py.len (s +:+ t) = Py.len s + Py.len t.
Proof.
  induction s as [|c s IH]; [done|].
  rewrite append_cons, !len_cons. lia.
Qed.

Lemma len_nonneg s : 0 ≤ Py.len s.
Proof. unfold Py.len. lia. Qed.

Lemma append_assoc (s t u : string) : (s +:+ t) +:+ u = s +:+ (t +:+ u).
Proof.
  induction s as [|c s IH]; [done|]. by rewrite !append_cons, IH.
Qed.

Lemma find_from_absent c s i j :
  0 ≤ i → 0 ≤ j → Py.find_from c s i = -1 → Py.find_from c s j = -1.
Proof.
  revert i j. induction s as [|a s IH]; intros i j Hi Hj; simpl; [done|].
  destruct (Ascii.eqb a c); [lia|]. apply IH; lia.
Qed.

Lemma find_from_append c pre s i :
  0 ≤ i → Py.find_from c pre i = -1 →
  Py.find_from c (pre +:+ s) i = Py.find_from c s (i + Py.len pre).
Proof.
  revert i. induction pre as [|a pre IH]; intros i Hi.
  - intros _. rewrite append_nil. f_equal. unfold Py.len. simpl. lia.
  - rewrite append_cons, len_cons. simpl.
    destruct (Ascii.eqb a c); [lia|]. intros H.
    rewrite IH by (done || lia). f_equal. lia.
Qed.

(** The first occurrence of [c] in [pre + c + s] when [pre] has none. *)
Lemma find_first c pre s :
  Py.find c pre = -1 → Py.find c (pre +:+ String c s) = Py.len pre.
Proof.
  intros H. unfold Py.find in *. rewrite find_from_append by done.
  simpl. by rewrite Ascii.eqb_refl.
Qed.

Lemma find_append_absent c s t :
  Py.find c s = -1 → Py.find c t = -1 → Py.find c (s +:+ t) = -1.
Proof.
  unfold Py.find. intros Hs Ht. rewrite find_from_append by done.
  apply (find_from_absent c t 0); [done|apply len_nonneg|done].
Qed.

Lemma substring_append pre mid rest :
  String.substring (String.length pre) (String.length mid)
                   (pre +:+ mid +:+ rest) = mid.
Proof.
  induction pre as [|a pre IH]; [|by rewrite append_cons].
  rewrite append_nil.
  induction mid as [|b mid IH]; [by destruct rest|].
  rewrite append_cons. simpl. f_equal. exact IH.
Qed.

Lemma substring_whole s m :
  (String.length s ≤ m)%nat → String.substring 0 m s = s.
Proof.
  revert m. induction s as [|a s IH]; intros m Hm; simpl in *.
  - by destruct m.
  - destruct m as [|m]; [lia|]. rewrite IH; [done|lia].
Qed.

Lemma adjust_inside n i : 0 ≤ i → i ≤ n → Py.adjust n i = i.
Proof. intros. unfold Py.adjust. destruct (Z.ltb_spec i 0); lia. Qed.

Lemma adjust_beyond n i : 0 ≤ n → n ≤ i → Py.adjust n i = n.
Proof. intros. unfold Py.adjust. destruct (Z.ltb_spec i 0); lia. Qed.

(** [ (pre + mid + rest)[len pre : len pre + len mid] ] is [mid]. *)
Lemma slice_append pre mid rest :
  Py.slice (pre +:+ mid +:+ rest) (Py.len pre) (Py.len pre + Py.len mid) = mid.
Proof.
  unfold Py.slice. rewrite !len_append.
  pose proof (len_nonneg pre). pose proof (len_nonneg mid).
  pose proof (len_nonneg rest).
  rewrite !adjust_inside by lia.
  replace (Z.to_nat (Py.len pre)) with (String.length pre)
    by (unfold Py.len; lia).
  replace (Z.to_nat (Py.len pre + Py.len mid - Py.len pre))
    with (String.length mid) by (unfold Py.len; lia).
  apply substring_append.
Qed.

Lemma substring_append_end pre mid m :
  (String.length mid ≤ m)%nat →
  String.substring (String.length pre) m (pre +:+ mid) = mid.
Proof.
  intros Hm. induction pre as [|a pre IH]; [|by rewrite append_cons].
  rewrite append_nil. by apply substring_whole.
Qed.

(** A slice that ends past the end of the string stops at the end. *)
Lemma slice_append_beyond pre mid b :
  Py.len pre + Py.len mid ≤ b →
  Py.slice (pre +:+ mid) (Py.len pre) b = mid.
Proof.
  intros Hb. unfold Py.slice. rewrite !len_append.
  pose proof (len_nonneg pre). pose proof (len_nonneg mid).
  rewrite adjust_inside, adjust_beyond by lia.
  replace (Z.to_nat (Py.len pre)) with (String.length pre)
    by (unfold Py.len; lia).
  apply substring_append_end. unfold Py.len. lia.
Qed.

Lemma append_empty_r s : s +:+ EmptyString = s.
Proof. induction s as [|a s IH]; [done|]. by rewrite append_cons, IH. Qed.

(** The indices of the brackets of [pre + '[' + body + ']' + post] when
    [pre] has no bracket and [body] no ']'. *)
Lemma find_brackets pre body post :
  Py.find "[" pre = -1 → Py.find "]" pre = -1 → Py.find "]" body = -1 →
  let line := pre +:+ "[" +:+ body +:+ "]" +:+ post in
  Py.find "[" line = Py.len pre
  ∧ Py.find "]" line = Py.len pre + 1 + Py.len body.
Proof.
  intros Hl Hr Hb line. split.
  - by apply find_first.
  - subst line.
    replace (pre +:+ "[" +:+ body +:+ "]" +:+ post)
      with ((pre +:+ "[" +:+ body) +:+ String "]" post)
      by (by rewrite !append_assoc).
    rewrite find_first.
    + rewrite !len_append. change (Py.len "[") with 1. lia.
    + apply find_append_absent; [done|].
      by apply find_append_absent.
Qed.

(** ** Citations *)

(** C2, as stated, fails: the parser takes the first ']' of the whole
    line, not the first one after the '['; with a ']' before the
    citation, a line that ends in '[smith2020]' gives neither 'smith' nor
    '2020'. *)
Lemma citation_after_stray_bracket :
  ¬ (∀ pre : string,
       author_year (pre +:+ "[smith2020]") = ("smith", "2020")).
Proof.
  intros H. specialize (H "x] "). vm_compute in H. discriminate.
Qed.

Example stray_bracket_author_year :
  author_year "x] [smith2020]" = ("smith20", "").
Proof. reflexivity. Qed.

(** C2 (amended): the parser locates the first '[' and the first ']' of
    the whole line.  For a line [pre + '[' + author + year + ']' + post]
    where [pre] has no bracket, [author] and [year] have no ']' and
    [year] has 4 characters, it yields that author and that year, and the
    [plain] row of the model is (name, capitalized author + ', ' + year),
    the capitalized author being what [str.capitalize] gives, for
    'smith' [Smith].  (When the capital of the first character of the
    author is not below 256 the field is a [str] that [string] cannot
    hold.) *)
Theorem citation_author_and_year
    (pre author year post name : string) (model : component) :
  Py.find "[" pre = -1 → Py.find "]" pre = -1 →
  Py.find "]" author = -1 → Py.find "]" year = -1 →
  Py.len year = 4 →
  first_line (__doc__ model)
    = Ok (pre +:+ "[" +:+ author +:+ year +:+ "]" +:+ post) →
  author_year (pre +:+ "[" +:+ author +:+ year +:+ "]" +:+ post)
    = (author, year)
  ∧ model_line "plain" name model
    = Ok [Str name;
          match Py.capitalize author with
          | Some capitalized => Str (capitalized +:+ ", " +:+ year)
          | None => StrWide
          end].
Proof.
  intros Hl Hr Ha Hy Hlen Hdoc.
  assert (E : author_year (pre +:+ "[" +:+ author +:+ year +:+ "]" +:+ post)
              = (author, year)).
  { unfold author_year.
    destruct (find_brackets pre (author +:+ year) post) as [El Er];
      [done|done|by apply find_append_absent|].
    rewrite append_assoc in El, Er. rewrite El, Er, len_append, Hlen.
    f_equal.
    - replace (1 + Py.len pre) with (Py.len (pre +:+ "["))
        by (rewrite len_append; change (Py.len "[") with 1; lia).
      replace (Py.len pre + 1 + (Py.len author + 4) - 4)
        with (Py.len (pre +:+ "[") + Py.len author)
        by (rewrite len_append; change (Py.len "[") with 1; lia).
      rewrite <- (append_assoc pre "[").
      apply slice_append.
    - replace (Py.len pre + 1 + (Py.len author + 4) - 4)
        with (Py.len (pre +:+ "[" +:+ author))
        by (rewrite !len_append; change (Py.len "[") with 1; lia).
      replace (Py.len pre + 1 + (Py.len author + 4))
        with (Py.len (pre +:+ "[" +:+ author) + Py.len year)
        by (rewrite !len_append; change (Py.len "[") with 1; lia).
      replace (pre +:+ "[" +:+ author +:+ year +:+ "]" +:+ post)
        with ((pre +:+ "[" +:+ author) +:+ year +:+ "]" +:+ post)
        by (by rewrite !append_assoc).
      apply slice_append. }
  split; [done|].
  unfold model_line. rewrite Hdoc, E. reflexivity.
Qed.

Lemma citation_author_and_year_witness :
  author_year "An implementation of Smith [smith2020]" = ("smith", "2020")
  ∧ model_line "plain" "Smith" smith_model
    = Ok [Str "Smith"; Str "Smith, 2020"].
Proof.
  apply (citation_author_and_year "An implementation of Smith "
           "smith" "2020" "" "Smith" smith_model); reflexivity.
Defined.

(** C3, as stated, fails: the third [rst] field is [line[l: r + 2]]; it
    goes one character past the ']' (the underscore of a reST citation
    reference). *)
Lemma rst_field_past_bracket :
  ¬ (∀ (pre body post name : string) (model : component),
       Py.find "[" pre = -1 → Py.find "]" pre = -1 →
       Py.find "]" body = -1 →
       first_line (__doc__ model)
         = Ok (pre +:+ "[" +:+ body +:+ "]" +:+ post) →
       ∃ ref, model_line "rst" name model
              = Ok [Str name; Str ref; Str ("[" +:+ body +:+ "]")]).
Proof.
  intros H.
  destruct (H "An implementation of TransE " "bordes2013" "_." "TransE"
              transe) as [ref Href]; try reflexivity.
  vm_compute in Href. discriminate.
Qed.

Example transe_rst_row :
  model_line "rst" "TransE" transe
  = Ok [Str "TransE"; Str ":class:`poem.models.TransE`";
        Str "[bordes2013]_"].
Proof. reflexivity. Qed.

(** C3 (amended): for a first line [pre + '[' + body + ']' + post] where
    [pre] has no bracket and [body] no ']', the third field of the [rst]
    row is the bracket span followed by the one character after the ']',
    when there is one. *)
Theorem rst_field_bracket_span_and_next
    (pre body post name : string) (model : component) :
  Py.find "[" pre = -1 → Py.find "]" pre = -1 → Py.find "]" body = -1 →
  first_line (__doc__ model) = Ok (pre +:+ "[" +:+ body +:+ "]" +:+ post) →
  model_line "rst" name model
  = Ok [Str name; Str (":class:`poem.models." +:+ name +:+ "`");
        Str ("[" +:+ body +:+ "]" +:+ String.substring 0 1 post)].
Proof.
  intros Hl Hr Hb Hdoc. unfold model_line. rewrite Hdoc. simpl.
  destruct (find_brackets pre body post) as [-> ->]; [done..|].
  do 5 f_equal.
  destruct post as [|c post].
  - simpl String.substring. rewrite !append_empty_r.
    replace (pre +:+ "[" +:+ body +:+ "]")
      with (pre +:+ ("[" +:+ body +:+ "]")) by done.
    apply slice_append_beyond.
    rewrite !len_append. change (Py.len "[") with 1.
    change (Py.len "]") with 1. lia.
  - replace (String.substring 0 1 (String c post)) with (String c "")
      by (simpl; by destruct post).
    replace (pre +:+ "[" +:+ body +:+ "]" +:+ String c post)
      with (pre +:+ ("[" +:+ body +:+ "]" +:+ String c "") +:+ post)
      by (by rewrite !append_assoc).
    replace (Py.len pre + 1 + Py.len body + 2)
      with (Py.len pre + Py.len ("[" +:+ body +:+ "]" +:+ String c ""))
      by (rewrite !len_append; change (Py.len "[") with 1;
          change (Py.len "]") with 1; rewrite len_cons;
          change (Py.len "") with 0; lia).
    apply slice_append.
Qed.

Lemma rst_field_bracket_span_and_next_witness :
  model_line "rst" "TransE" transe
  = Ok [Str "TransE"; Str (":class:`poem.models." +:+ "TransE" +:+ "`");
        Str ("[" +:+ "bordes2013" +:+ "]" +:+ String.substring 0 1 "_.")].
Proof.
  apply (rst_field_bracket_span_and_next "An implementation of TransE "
           "bordes2013" "_." "TransE" transe); reflexivity.
Defined.

(** ** The composite report *)

(** C7, as stated, fails: with a model class that has no docstring the
    command writes the first header and stops with [AttributeError]; the
    four other sections are not written. *)
Lemma github_readme_stops_at_undocumented_model :
  ¬ (∀ models_dict data_sets training_dict evaluators_dict metrics_dict
       : gmap string component,
       ∃ r1 r2 r3 r4 r5,
         (github_readme models_dict data_sets training_dict evaluators_dict
                        metrics_dict).1
         = five_sections r1 r2 r3 r4 r5).
Proof.
  intros H.
  destruct (H {["M" := undocumented_class]} ∅ ∅ ∅ ∅)
    as (r1 & r2 & r3 & r4 & r5 & E).
  vm_compute in E. discriminate.
Qed.

Example readme_of_undocumented_model :
  github_readme {["M" := undocumented_class]} ∅ ∅ ∅ ∅
  = ([Echo ("### Models" +:+ nl)], Raise AttributeError).
Proof. vm_compute. reflexivity. Qed.

Lemma get_model_lines_documented (d : gmap string component) tablefmt :
  map_Forall (λ _ v, documented v) d →
  raised (_get_model_lines d tablefmt) = None
  ∧ length (yielded (_get_model_lines d tablefmt)) = size d.
Proof.
  intros Hd.
  destruct (projection_one_row_per_entry d (model_line tablefmt))
    as (Hr & Hl & _); [|done].
  intros name v Hv. apply model_line_documented. by apply (Hd name).
Qed.

Lemma get_lines_github_total (d : gmap string component) submodule :
  map_Forall (λ _ v, __doc__ v ≠ Some EmptyString) d →
  raised (_get_lines d "github" submodule) = None
  ∧ length (yielded (_get_lines d "github" submodule)) = size d.
Proof.
  intros Hd.
  destruct (projection_one_row_per_entry d (get_line "github" submodule))
    as (Hr & Hl & _); [|done].
  intros name v Hv. apply get_line_github_total. by apply (Hd name).
Qed.

(** C7 (amended): when every model has a documentation string with a
    first line and no entry of the other four registries has an empty
    documentation string, [github_readme] returns after writing exactly
    five sections, in the order models, data sets, training modes,
    evaluators, metrics, each a '### <title>' header and the [github]
    table of its registry, the sections separated by one empty line; each
    table has as many rows as its registry has entries, none for an empty
    registry. *)
Theorem github_readme_five_sections
    (models_dict data_sets training_dict evaluators_dict metrics_dict
       : gmap string component) :
  map_Forall (λ _ v, documented v) models_dict →
  map_Forall (λ _ v, __doc__ v ≠ Some EmptyString) data_sets →
  map_Forall (λ _ v, __doc__ v ≠ Some EmptyString) training_dict →
  map_Forall (λ _ v, __doc__ v ≠ Some EmptyString) evaluators_dict →
  map_Forall (λ _ v, __doc__ v ≠ Some EmptyString) metrics_dict →
  ∃ r1 r2 r3 r4 r5,
    github_readme models_dict data_sets training_dict evaluators_dict
                  metrics_dict
    = (five_sections r1 r2 r3 r4 r5, Ok tt)
    ∧ r1 = yielded (_get_model_lines models_dict "github")
    ∧ r2 = yielded (_get_lines data_sets "github" "datasets")
    ∧ r3 = yielded (_get_lines training_dict "github" "training")
    ∧ r4 = yielded (_get_lines evaluators_dict "github" "evaluators")
    ∧ r5 = yielded (_get_lines metrics_dict "github" "evaluators")
    ∧ length r1 = size models_dict ∧ length r2 = size data_sets
    ∧ length r3 = size training_dict ∧ length r4 = size evaluators_dict
    ∧ length r5 = size metrics_dict.
Proof.
  intros [Hm Lm]%(get_model_lines_documented _ "github")
         [Hd Ld]%(get_lines_github_total _ "datasets")
         [Ht Lt]%(get_lines_github_total _ "training")
         [He Le]%(get_lines_github_total _ "evaluators")
         [Hx Lx]%(get_lines_github_total _ "evaluators").
  do 5 eexists. split; [|repeat split; done].
  unfold github_readme, models, datasets, training, evaluators, metrics,
    listing, consume.
  rewrite Hm, Hd, Ht, He, Hx. reflexivity.
Qed.

Lemma github_readme_five_sections_witness :
  let m : gmap string component :=
    <["TransE" := transe]> {["Smith" := smith_model]} in
  let e : gmap string component := {["rank" := undocumented]} in
  ∃ r1 r2 r3 r4 r5,
    github_readme m ∅ e ∅ m = (five_sections r1 r2 r3 r4 r5, Ok tt)
    ∧ r1 = yielded (_get_model_lines m "github")
    ∧ r2 = yielded (_get_lines ∅ "github" "datasets")
    ∧ r3 = yielded (_get_lines e "github" "training")
    ∧ r4 = yielded (_get_lines ∅ "github" "evaluators")
    ∧ r5 = yielded (_get_lines m "github" "evaluators")
    ∧ length r1 = size m ∧ length r2 = size (∅ : gmap string component)
    ∧ length r3 = size e ∧ length r4 = size (∅ : gmap string component)
    ∧ length r5 = size m.
Proof.
  intros m e. apply (github_readme_five_sections m ∅ e ∅ m).
  - apply map_Forall_insert_2; [apply documented_transe|].
    apply map_Forall_singleton. eexists. split; [reflexivity|discriminate].
  - apply map_Forall_empty.
  - apply map_Forall_singleton. discriminate.
  - apply map_Forall_empty.
  - apply map_Forall_insert_2; [discriminate|].
    apply map_Forall_singleton. discriminate.
Defined.

(** ** Hyper-parameter usage *)

Lemma echo_usage_lines i (usage : list (string * gset string)) :
  echo_usage i usage
  = usage_lines i ((λ kv, (kv.1, sorted_set kv.2)) <$> usage).
Proof.
  revert i. induction usage as [|[name values] usage IH]; intros i; [done|].
  simpl. by rewrite IH.
Qed.

Lemma sorted_set_ascending values :
  StronglySorted String.le (sorted_set values).
Proof. apply StronglySorted_merge_sort; apply _. Qed.

Lemma sorted_set_perm values : sorted_set values ≡ₚ elements values.
Proof. apply merge_sort_Permutation. Qed.

Lemma hyperparemeter_usage_elem_of ann (usage : gmap string (gset string)) k v :
  (k, v) ∈ _hyperparemeter_usage ann usage
  ↔ usage !! k = Some v ∧ (k ∉ ann) ∧ k ≠ "init".
Proof.
  unfold _hyperparemeter_usage, base_parameters.
  rewrite merge_sort_Permutation, list_elem_of_filter, elem_of_map_to_list.
  simpl. set_solver.
Qed.

Lemma hyperparemeter_usage_names ann (usage : gmap string (gset string)) :
  StronglySorted String.le (_hyperparemeter_usage ann usage).*1
  ∧ NoDup (_hyperparemeter_usage ann usage).*1.
Proof.
  split.
  - apply StronglySorted_fst, StronglySorted_merge_sort; apply _.
  - unfold _hyperparemeter_usage. rewrite merge_sort_Permutation.
    eapply sublist_NoDup; [apply (NoDup_fst_map_to_list usage)|].
    apply fmap_sublist, sublist_filter.
Qed.

(** C8: after its title, [parameters] prints one numbered block per name
    of [_hyperparameter_usage] that is neither an annotated parameter of
    the constructor of [BaseModule] nor 'init', the blocks in ascending
    order of name, each with the classes that use the name in ascending
    order; with base parameters {a, b} and usages {a: {X}, c: {Y, Z}} it
    prints c with Y and Z. *)
Theorem parameters_lists_usage
    (init_annotations : gset string)
    (_hyperparameter_usage : gmap string (gset string)) :
  (∃ listing : list (string * list string),
     parameters init_annotations _hyperparameter_usage
     = (Echo "Names of __init__() parameters in all classes:"
        :: usage_lines 1 listing, Ok tt)
     ∧ (∀ name users, (name, users) ∈ listing ↔
          ∃ values, _hyperparameter_usage !! name = Some values
                    ∧ (name ∉ init_annotations) ∧ name ≠ "init"
                    ∧ users = sorted_set values)
     ∧ StronglySorted String.le listing.*1
     ∧ NoDup listing.*1
     ∧ ∀ values, StronglySorted String.le (sorted_set values)
                 ∧ sorted_set values ≡ₚ elements values)
  ∧ parameters ({["a"]} ∪ {["b"]})
               (<["a" := {["X"]}]> (<["c" := {["Y"]} ∪ {["Z"]}]> ∅))
    = (Echo "Names of __init__() parameters in all classes:"
       :: usage_lines 1 [("c", ["Y"; "Z"])], Ok tt).
Proof.
  split; [|vm_compute; reflexivity].
  exists ((λ kv, (kv.1, sorted_set kv.2))
            <$> _hyperparemeter_usage init_annotations _hyperparameter_usage).
  split; [|split; [|split; [|split]]].
  - unfold parameters. by rewrite echo_usage_lines.
  - intros name users. rewrite list_elem_of_fmap. split.
    + intros ([k v] & [= -> ->] & Hin).
      apply hyperparemeter_usage_elem_of in Hin as (? & ? & ?).
      by exists v.
    + intros (values & ? & ? & ? & ->). exists (name, values).
      split; [done|]. by apply hyperparemeter_usage_elem_of.
  - rewrite <- list_fmap_compose.
    apply (hyperparemeter_usage_names init_annotations _hyperparameter_usage).
  - rewrite <- list_fmap_compose.
    apply (hyperparemeter_usage_names init_annotations _hyperparameter_usage).
  - intros values. split; [apply sorted_set_ascending|apply sorted_set_perm].
Qed.

Example parameters_example :
  parameters ({["a"]} ∪ {["b"]})
             (<["a" := {["X"]}]> (<["c" := {["Y"]} ∪ {["Z"]}]> ∅))
  = ([Echo "Names of __init__() parameters in all classes:";
      Echo " 1. c"; Echo "    - Y"; Echo "    - Z"], Ok tt).
Proof. vm_compute. reflexivity. Qed.

(** ** Module start *)

Lemma register_app {Command} (build : component → Command) classes t :
  register Command build classes t
  = t ++ ((λ cls, AddCommand Command "train" (build cls)) <$> classes).
Proof.
  revert t. induction classes as [|cls classes IH]; intros t; simpl.
  - by rewrite app_nil_r.
  - by rewrite IH, <- app_assoc.
Qed.

(** C9: running the module registers, under [train], one subcommand
    built by [build_cli_from_cls] per entry of the model registry, once
    each; nothing but registrations happens before [main] is called, and
    nothing is taken out of the group. *)
Theorem train_one_subcommand_per_model
    (Command : Type) (build_cli_from_cls : component → Command)
    (models_dict : gmap string component) (is_main : bool) :
  ∃ registrations : list (startup Command),
    module_body Command build_cli_from_cls models_dict is_main
    = registrations ++ (if is_main then [CallMain Command] else [])
    ∧ length registrations = size models_dict
    ∧ Forall2 (λ ev (entry : string * component),
                 ev = AddCommand Command "train" (build_cli_from_cls entry.2))
              registrations (map_to_list models_dict).
Proof.
  exists ((λ cls, AddCommand Command "train" (build_cli_from_cls cls))
            <$> (map_to_list models_dict).*2).
  split; [|split].
  - unfold module_body. rewrite register_app. simpl.
    destruct is_main; [done|by rewrite app_nil_r].
  - by rewrite !length_fmap, length_map_to_list.
  - rewrite <- list_fmap_compose. apply Forall2_fmap_l, Forall_Forall2_diag.
    by apply Forall_forall.
Qed.

(** * Further properties of the listing code *)

(** ** Where a generator stops *)

(** A generator yields the rows of the items before the first one whose
    step raises, and stops with that exception; without such an item it
    yields a row for every item. *)
Lemma run_gen_split {A B} (f : B → result A) (items : list B) :
  ∃ done rest,
    items = done ++ rest
    ∧ Forall2 (λ a x, f x = Ok a) (yielded (run_gen (map f items))) done
    ∧ ((rest = [] ∧ raised (run_gen (map f items)) = None)
       ∨ ∃ x rest' e, rest = x :: rest' ∧ f x = Raise e
                      ∧ raised (run_gen (map f items)) = Some e).
Proof.
  induction items as [|x items (done & rest & -> & Hy & Hr)]; simpl.
  - exists [], []. repeat split; [constructor|by left].
  - destruct (f x) as [a|e] eqn:E; simpl.
    + exists (x :: done), rest. repeat split; [by constructor|done].
    + exists [], (x :: done ++ rest). repeat split; [constructor|].
      right. by exists x, (done ++ rest), e.
Qed.

Lemma run_gen_raised_None {A B} (f : B → result A) (items : list B) :
  raised (run_gen (map f items)) = None
  ↔ Forall (λ x, ∃ a, f x = Ok a) items.
Proof.
  split.
  - induction items as [|x items IH]; simpl; [constructor|].
    destruct (f x) as [a|e] eqn:E; simpl; [|done].
    intros Hr. constructor; [by exists a|by apply IH].
  - induction 1 as [|x items [a Hx] _ IH]; simpl; [done|].
    by rewrite Hx.
Qed.

Lemma run_gen_raised_Some {A B} (f : B → result A) (items : list B) e :
  raised (run_gen (map f items)) = Some e → ∃ x, x ∈ items ∧ f x = Raise e.
Proof.
  induction items as [|x items IH]; simpl; [done|].
  destruct (f x) as [a|e'] eqn:E; simpl.
  - intros (y & ? & ?)%IH. exists y. split; [by right|done].
  - intros [= ->]. exists x. split; [left|done].
Qed.

Lemma run_gen_same_outcome {A B} (f g : B → result A) (items : list B) :
  (∀ x, match f x, g x with
        | Ok _, Ok _ => True
        | Raise e, Raise e' => e = e'
        | _, _ => False
        end) →
  raised (run_gen (map f items)) = raised (run_gen (map g items))
  ∧ length (yielded (run_gen (map f items)))
    = length (yielded (run_gen (map g items))).
Proof.
  intros H. induction items as [|x items [IHr IHl]]; simpl; [done|].
  specialize (H x). destruct (f x), (g x); simpl; try done.
  - by rewrite IHl.
  - by subst.
Qed.

(** ** What makes a row *)

Lemma first_line_ok_documented v line :
  first_line (__doc__ v) = Ok line → documented v.
Proof.
  unfold first_line, documented. destruct (__doc__ v) as [s|]; [|done].
  destruct (Py.splitlines s) eqn:E; [done|]. intros _.
  exists s. split; [done|]. by intros ->.
Qed.

Lemma model_line_first_line tablefmt name model :
  match model_line tablefmt name model, first_line (__doc__ model) with
  | Ok r, Ok _ => row_of r name
  | Raise e, Raise e' => e = e'
  | _, _ => False
  end.
Proof.
  unfold model_line. destruct (first_line (__doc__ model)) as [line|e]; [|done].
  destruct (author_year line) as [author year].
  destruct (String.eqb tablefmt "rst"); [done|].
  by destruct (String.eqb tablefmt "github").
Qed.

Lemma get_line_plain_first_line tablefmt submodule name value :
  tablefmt ≠ "rst" → tablefmt ≠ "github" →
  match get_line tablefmt submodule name value,
        first_line (__doc__ value) with
  | Ok r, Ok _ => row_of r name
  | Raise e, Raise e' => e = e'
  | _, _ => False
  end.
Proof.
  intros H1%String.eqb_neq H2%String.eqb_neq. unfold get_line.
  rewrite H1, H2. by destruct (first_line (__doc__ value)).
Qed.

Lemma get_line_row_of tablefmt submodule name value r :
  get_line tablefmt submodule name value = Ok r → row_of r name.
Proof.
  unfold get_line. destruct (String.eqb tablefmt "rst"); [by intros [= <-]|].
  destruct (String.eqb tablefmt "github").
  - destruct (__name__ value) as [ref|]; [|by intros [= <-]].
    destruct (first_line (__doc__ value)) as [doc|[]]; by intros [= <-].
  - destruct (first_line (__doc__ value)); by intros [= <-].
Qed.

Lemma model_line_row_of tablefmt name model r :
  model_line tablefmt name model = Ok r → row_of r name.
Proof.
  intros E. pose proof (model_line_first_line tablefmt name model) as H.
  rewrite E in H. by destruct (first_line (__doc__ model)).
Qed.

Lemma first_line_outcome (d : gmap string component)
    (f : string → component → result row) :
  (∀ name v, match f name v, first_line (__doc__ v) with
             | Ok _, Ok _ => True
             | Raise e, Raise e' => e = e'
             | _, _ => False
             end) →
  let g := run_gen (map (λ '(name, v), f name v) (sorted_items d)) in
  (raised g = None ↔ map_Forall (λ _ v, documented v) d)
  ∧ ∀ e, raised g = Some e →
      ∃ name v, d !! name = Some v
        ∧ ((__doc__ v = None ∧ e = AttributeError)
           ∨ (__doc__ v = Some EmptyString ∧ e = IndexError)).
Proof.
  intros Hf g. split; [split|].
  - intros Hr name v Hv. unfold g in Hr.
    rewrite run_gen_raised_None, Forall_forall in Hr.
    apply sorted_items_lookup in Hv. destruct (Hr _ Hv) as [a Ha].
    specialize (Hf name v). rewrite Ha in Hf.
    destruct (first_line (__doc__ v)) eqn:E; [|done].
    by eapply first_line_ok_documented.
  - intros Hd. unfold g. apply run_gen_raised_None, Forall_forall.
    intros [name v] Hv%sorted_items_lookup.
    destruct (first_line_documented v) as [line E]; [by apply (Hd name)|].
    specialize (Hf name v). rewrite E in Hf.
    destruct (f name v) eqn:Ef; [by eexists|done].
  - intros e ([name v] & Hv%sorted_items_lookup & Hx)%run_gen_raised_Some.
    exists name, v. split; [done|].
    specialize (Hf name v). rewrite Hx in Hf.
    destruct (first_line (__doc__ v)) eqn:E; [done|]. subst.
    by apply first_line_raises.
Qed.

(** ** When the projections raise *)

(** X1: the [rst] projection of a non-model registry reads no
    documentation: for every registry it raises nothing and yields, in
    ascending order of name, the row (name, :class:`poem.<submodule>.<name>`)
    of every entry. *)
Theorem rst_lines_never_raise (d : gmap string component) (submodule : string) :
  _get_lines d "rst" submodule
  = {| yielded :=
         (λ kv : string * component,
            [Str kv.1;
             Str (":class:`poem." +:+ submodule +:+ "." +:+ kv.1 +:+ "`")])
           <$> sorted_items d;
       raised := None |}
  ∧ one_row_per_entry d (_get_lines d "rst" submodule).
Proof.
  split.
  - unfold _get_lines.
    rewrite (run_gen_ext _ (λ kv : string * component, Ok
               [Str kv.1;
                Str (":class:`poem." +:+ submodule +:+ "." +:+ kv.1 +:+ "`")]))
      by (by intros [name v]).
    by apply run_gen_ok, Forall_forall.
  - apply projection_one_row_per_entry. intros name v _. by eexists.
Qed.

(** X2: in a format other than [rst] and [github] the projection of a
    non-model registry raises nothing exactly when every entry has a
    documentation string with a first line; when it raises, some entry
    has no documentation string ([AttributeError]) or an empty one
    ([IndexError]). *)
Theorem plain_lines_raise_iff_undocumented
    (d : gmap string component) (tablefmt submodule : string) :
  tablefmt ≠ "rst" → tablefmt ≠ "github" →
  (raised (_get_lines d tablefmt submodule) = None
   ↔ map_Forall (λ _ v, documented v) d)
  ∧ ∀ e, raised (_get_lines d tablefmt submodule) = Some e →
      ∃ name v, d !! name = Some v
        ∧ ((__doc__ v = None ∧ e = AttributeError)
           ∨ (__doc__ v = Some EmptyString ∧ e = IndexError)).
Proof.
  intros H1 H2.
  apply (first_line_outcome d (get_line tablefmt submodule)).
  intros name v.
  pose proof (get_line_plain_first_line tablefmt submodule name v H1 H2) as H.
  destruct (get_line _ _ _ _), (first_line _); done.
Qed.

Lemma plain_lines_raise_iff_undocumented_witness :
  let d : gmap string component :=
    <["TransE" := transe]> {["M" := undocumented_class]} in
  (raised (_get_lines d "plain" "datasets") = None
   ↔ map_Forall (λ _ v, documented v) d)
  ∧ ∀ e, raised (_get_lines d "plain" "datasets") = Some e →
      ∃ name v, d !! name = Some v
        ∧ ((__doc__ v = None ∧ e = AttributeError)
           ∨ (__doc__ v = Some EmptyString ∧ e = IndexError)).
Proof.
  intros d.
  apply (plain_lines_raise_iff_undocumented d "plain" "datasets"); discriminate.
Defined.

(** X3: in every format the model projection raises nothing exactly when
    every model has a documentation string with a first line; when it
    raises, some model has no documentation string ([AttributeError]) or
    an empty one ([IndexError]). *)
Theorem model_lines_raise_iff_undocumented
    (models_dict : gmap string component) (tablefmt : string) :
  (raised (_get_model_lines models_dict tablefmt) = None
   ↔ map_Forall (λ _ v, documented v) models_dict)
  ∧ ∀ e, raised (_get_model_lines models_dict tablefmt) = Some e →
      ∃ name v, models_dict !! name = Some v
        ∧ ((__doc__ v = None ∧ e = AttributeError)
           ∨ (__doc__ v = Some EmptyString ∧ e = IndexError)).
Proof.
  apply (first_line_outcome models_dict (model_line tablefmt)).
  intros name v. pose proof (model_line_first_line tablefmt name v) as H.
  destruct (model_line _ _ _), (first_line _); done.
Qed.

Lemma get_line_github_raises submodule name value e :
  get_line "github" submodule name value = Raise e →
  e = IndexError ∧ is_Some (__name__ value)
  ∧ __doc__ value = Some EmptyString.
Proof.
  unfold get_line. simpl.
  destruct (__name__ value) as [ref|]; [|done].
  destruct (first_line (__doc__ value)) as [doc|e'] eqn:E; [done|].
  apply first_line_raises in E as [[_ ->]|[E ->]]; [done|].
  intros [= <-]. by eauto.
Qed.

(** X4: the [github] projection of a non-model registry catches every
    [AttributeError]: it raises nothing exactly when no entry has both a
    [__name__] and an empty documentation string, and what it raises is
    an [IndexError]. *)
Theorem github_lines_raise_iff_empty_doc
    (d : gmap string component) (submodule : string) :
  (raised (_get_lines d "github" submodule) = None
   ↔ map_Forall (λ _ v, ¬ (is_Some (__name__ v)
                           ∧ __doc__ v = Some EmptyString)) d)
  ∧ ∀ e, raised (_get_lines d "github" submodule) = Some e → e = IndexError.
Proof.
  split; [split|].
  - intros Hr name v Hv [[ref Hn] Hd]. unfold _get_lines in Hr.
    rewrite run_gen_raised_None, Forall_forall in Hr.
    apply sorted_items_lookup in Hv. destruct (Hr _ Hv) as [a Ha].
    unfold get_line in Ha. simpl in Ha. by rewrite Hn, Hd in Ha.
  - intros Hd. apply run_gen_raised_None, Forall_forall.
    intros [name v] Hv%sorted_items_lookup.
    destruct (get_line "github" submodule name v) as [r|e] eqn:E;
      [by eexists|].
    apply get_line_github_raises in E as (_ & ? & ?).
    by destruct (Hd name v Hv).
  - intros e ([name v] & _ & Hx)%run_gen_raised_Some.
    by apply get_line_github_raises in Hx as [-> _].
Qed.

(** X5: whatever the registry and the format, the rows a projection
    yields before it ends or raises are the rows of the first entries in
    ascending order of name: their names are a prefix of the sorted
    names, and there are at most [len(d)] of them. *)
Theorem yielded_rows_follow_sorted_names
    (d : gmap string component) (tablefmt submodule : string) :
  (∃ names, names `prefix_of` (sorted_items d).*1
            ∧ Forall2 row_of (yielded (_get_lines d tablefmt submodule)) names
            ∧ (length names ≤ size d)%nat)
  ∧ (∃ names, names `prefix_of` (sorted_items d).*1
              ∧ Forall2 row_of (yielded (_get_model_lines d tablefmt)) names
              ∧ (length names ≤ size d)%nat).
Proof.
  assert (H : ∀ f : string → component → result row,
             (∀ name v r, f name v = Ok r → row_of r name) →
             ∃ names, names `prefix_of` (sorted_items d).*1
               ∧ Forall2 row_of
                   (yielded (run_gen (map (λ '(name, v), f name v)
                                          (sorted_items d)))) names
               ∧ (length names ≤ size d)%nat).
  { intros f Hf.
    destruct (run_gen_split (λ '(name, v), f name v) (sorted_items d))
      as (done & rest & E & Hy & _).
    exists done.*1. split; [|split].
    - exists rest.*1. by rewrite E, fmap_app.
    - apply Forall2_fmap_r. eapply Forall2_impl; [exact Hy|].
      intros r [name v] Hr. by apply (Hf name v).
    - rewrite <- sorted_items_length, E, length_fmap, length_app. lia. }
  split; apply H.
  - intros name v r. apply get_line_row_of.
  - intros name v r. apply model_line_row_of.
Qed.

(** X6: whether and how the model projection raises, and how many rows
    it yields, does not depend on the format: the documentation line is
    read before the format is looked at. *)
Theorem model_lines_outcome_same_in_all_formats
    (models_dict : gmap string component) (fmt1 fmt2 : string) :
  raised (_get_model_lines models_dict fmt1)
  = raised (_get_model_lines models_dict fmt2)
  ∧ length (yielded (_get_model_lines models_dict fmt1))
    = length (yielded (_get_model_lines models_dict fmt2)).
Proof.
  apply run_gen_same_outcome. intros [name v].
  pose proof (model_line_first_line fmt1 name v) as H1.
  pose proof (model_line_first_line fmt2 name v) as H2.
  destruct (model_line fmt1 name v), (model_line fmt2 name v),
    (first_line (__doc__ v)); try done. congruence.
Qed.

(** X7: a non-model registry whose [plain] projection raises nothing has
    [rst] and [github] projections that raise nothing either, and all
    three yield [len(d)] rows. *)
Theorem plain_lines_ok_then_all_formats_ok
    (d : gmap string component) (submodule : string) :
  raised (_get_lines d "plain" submodule) = None →
  raised (_get_lines d "rst" submodule) = None
  ∧ raised (_get_lines d "github" submodule) = None
  ∧ length (yielded (_get_lines d "plain" submodule)) = size d
  ∧ length (yielded (_get_lines d "rst" submodule)) = size d
  ∧ length (yielded (_get_lines d "github" submodule)) = size d.
Proof.
  intros Hp.
  assert (Hd : map_Forall (λ _ v, documented v) d).
  { apply (first_line_outcome d (get_line "plain" submodule)); [|done].
    intros name v.
    pose proof (get_line_plain_first_line "plain" submodule name v) as H.
    destruct (get_line _ _ _ _), (first_line _); by try apply H. }
  assert (H : ∀ fmt, one_row_per_entry d (_get_lines d fmt submodule)).
  { intros fmt. apply projection_one_row_per_entry. intros name v Hv.
    apply get_line_documented. by apply (Hd name). }
  pose proof (H "plain") as (_ & ? & _).
  pose proof (H "rst") as (? & ? & _).
  pose proof (H "github") as (? & ? & _). done.
Qed.

Lemma plain_lines_ok_then_all_formats_ok_witness :
  let d : gmap string component :=
    <["TransE" := transe]> {["Smith" := smith_model]} in
  raised (_get_lines d "rst" "datasets") = None
  ∧ raised (_get_lines d "github" "datasets") = None
  ∧ length (yielded (_get_lines d "plain" "datasets")) = size d
  ∧ length (yielded (_get_lines d "rst" "datasets")) = size d
  ∧ length (yielded (_get_lines d "github" "datasets")) = size d.
Proof.
  intros d. apply (plain_lines_ok_then_all_formats_ok d "datasets").
  vm_compute. reflexivity.
Defined.

(** ** What the commands write *)

Lemma model_line_arity tablefmt name model r :
  model_line tablefmt name model = Ok r →
  length r = length (model_headers tablefmt).
Proof.
  unfold model_line, model_headers.
  destruct (first_line (__doc__ model)) as [line|]; [|done].
  destruct (author_year line) as [author year].
  destruct (String.eqb tablefmt "rst"); [by intros [= <-]|].
  destruct (String.eqb tablefmt "github"); by intros [= <-].
Qed.

Lemma get_line_headers_arity tablefmt submodule name value r :
  tablefmt = "plain" ∨ tablefmt = "github" →
  get_line tablefmt submodule name value = Ok r →
  length r = length (listing_headers tablefmt).
Proof.
  intros [->| ->]; unfold get_line, listing_headers; simpl.
  - destruct (first_line (__doc__ value)); by intros [= <-].
  - destruct (__name__ value) as [ref|]; [|by intros [= <-]].
    destruct (first_line (__doc__ value)) as [doc|[]]; by intros [= <-].
Qed.

Lemma run_gen_length {A B} (f : B → result A) (items : list B) :
  raised (run_gen (map f items)) = None →
  length (yielded (run_gen (map f items))) = length items.
Proof.
  induction items as [|x items IH]; simpl; [done|].
  destruct (f x); simpl; [|done]. intros Hr. by rewrite IH.
Qed.

Lemma consume_table (g : generated row) headers tablefmt :
  (lines ← consume g; echo_table lines headers tablefmt)
  = match raised g with
    | None => ([EchoTable (yielded g) headers tablefmt], Ok tt)
    | Some e => ([], Raise e)
    end.
Proof. unfold consume. by destruct (raised g). Qed.

Lemma model_line_fields tablefmt name model r :
  model_line tablefmt name model = Ok r →
  length r = if String.eqb tablefmt "rst" || String.eqb tablefmt "github"
             then 3%nat else 2%nat.
Proof.
  unfold model_line.
  destruct (first_line (__doc__ model)) as [line|]; [|done].
  destruct (author_year line) as [author year].
  destruct (String.eqb tablefmt "rst"); [by intros [= <-]|].
  destruct (String.eqb tablefmt "github"); by intros [= <-].
Qed.

(** X8: a table the [models] command writes is rendered in the requested
    format and has one row per model; in [rst] and [github] it has the
    three headers Name, Reference, Citation and rows of three fields, in
    any other format the two headers Name, Citation and rows of two
    fields: the headers and the fields always agree in number. *)
Theorem models_table_rows_match_headers
    (models_dict : gmap string component) (tablefmt : string)
    (rows : list row) (headers : list string) (fmt : string) :
  EchoTable rows headers fmt ∈ (models models_dict tablefmt).1 →
  fmt = tablefmt
  ∧ length rows = size models_dict
  ∧ (((tablefmt = "rst" ∨ tablefmt = "github")
      ∧ headers = ["Name"; "Reference"; "Citation"]
      ∧ Forall (λ r : row, length r = 3%nat) rows)
     ∨ (tablefmt ≠ "rst" ∧ tablefmt ≠ "github"
        ∧ headers = ["Name"; "Citation"]
        ∧ Forall (λ r : row, length r = 2%nat) rows)).
Proof.
  unfold models. rewrite consume_table.
  destruct (raised (_get_model_lines models_dict tablefmt)) eqn:Hr; simpl;
    [by intros ?%elem_of_nil|].
  intros [= -> -> ->]%list_elem_of_singleton.
  split; [done|]. split.
  { unfold _get_model_lines in *.
    by rewrite run_gen_length, sorted_items_length. }
  assert (Hrows : Forall (λ r : row,
                    length r = if String.eqb tablefmt "rst"
                                  || String.eqb tablefmt "github"
                               then 3%nat else 2%nat)
                  (yielded (_get_model_lines models_dict tablefmt))).
  { apply run_gen_yielded. intros [name v] r. apply model_line_fields. }
  unfold model_headers.
  destruct (String.eqb_spec tablefmt "rst") as [E1|E1];
    [left; by eauto|].
  destruct (String.eqb_spec tablefmt "github") as [E2|E2];
    [left; by eauto|].
  right. by eauto.
Qed.

Lemma models_table_rows_match_headers_witness :
  let d : gmap string component := {["TransE" := transe]} in
  let rows := [[Str "TransE"; Str "`poem.models.TransE`";
                Str "Bordes *et al.*, 2013"]] in
  let headers := ["Name"; "Reference"; "Citation"] in
  "github" = "github"
  ∧ length rows = size d
  ∧ ((("github" = "rst" ∨ "github" = "github")
      ∧ headers = ["Name"; "Reference"; "Citation"]
      ∧ Forall (λ r : row, length r = 3%nat) rows)
     ∨ ("github" ≠ "rst" ∧ "github" ≠ "github"
        ∧ headers = ["Name"; "Citation"]
        ∧ Forall (λ r : row, length r = 2%nat) rows)).
Proof.
  intros d rows headers.
  apply (models_table_rows_match_headers d "github" rows headers "github").
  vm_compute. constructor.
Defined.

(** X9: the [models] command returns exactly when every model has a
    documentation string with a first line; when it does not return it
    has written nothing, no partial table. *)
Theorem models_returns_iff_documented
    (models_dict : gmap string component) (tablefmt : string) :
  ((models models_dict tablefmt).2 = Ok tt
   ↔ map_Forall (λ _ v, documented v) models_dict)
  ∧ ((models models_dict tablefmt).2 ≠ Ok tt →
     (models models_dict tablefmt).1 = []).
Proof.
  unfold models. rewrite consume_table.
  destruct (first_line_outcome models_dict (model_line tablefmt)) as [Hiff _].
  { intros name v. pose proof (model_line_first_line tablefmt name v) as H.
    destruct (model_line _ _ _), (first_line _); done. }
  fold (_get_model_lines models_dict tablefmt) in Hiff.
  destruct (raised (_get_model_lines models_dict tablefmt)) eqn:Hr; simpl.
  - split; [|done]. rewrite <- Hiff. split; done.
  - split; [|done]. by rewrite <- Hiff.
Qed.

(** X10: in the [rst] format each of [datasets], [training], [samplers],
    [evaluators] and [metrics] returns for every registry, and writes one
    table with the three headers Name, Reference, Description whose rows,
    one per entry, have two fields only. *)
Theorem rst_listings_three_headers_two_fields
    (d : gmap string component) :
  Forall (λ command : string → io unit,
            ∃ rows,
              command "rst"
              = ([EchoTable rows ["Name"; "Reference"; "Description"] "rst"],
                 Ok tt)
              ∧ length rows = size d
              ∧ Forall (λ r : row, length r = 2%nat) rows)
         [datasets d; training d; samplers d; evaluators d; metrics d].
Proof.
  assert (H : ∀ submodule, ∃ rows,
             listing d "rst" submodule
             = ([EchoTable rows ["Name"; "Reference"; "Description"] "rst"],
                Ok tt)
             ∧ length rows = size d
             ∧ Forall (λ r : row, length r = 2%nat) rows).
  { intros submodule. exists (yielded (_get_lines d "rst" submodule)).
    destruct (projection_one_row_per_entry d (get_line "rst" submodule))
      as (Hr & Hl & _); [intros name v _; by eexists|].
    fold (_get_lines d "rst" submodule) in Hr, Hl.
    split; [|split; [done|]].
    - unfold listing. by rewrite consume_table, Hr.
    - apply run_gen_yielded. by intros [name v] r [= <-]. }
  repeat constructor; apply H.
Qed.

(** X11: in the [plain] and [github] formats every table that
    [datasets], [training], [samplers], [evaluators] or [metrics] writes
    has as many headers as each of its rows has fields. *)
Theorem plain_github_listings_rows_match_headers
    (d : gmap string component) (tablefmt : string) :
  tablefmt = "plain" ∨ tablefmt = "github" →
  Forall (λ command : string → io unit,
            ∀ rows headers fmt,
              EchoTable rows headers fmt ∈ (command tablefmt).1 →
              Forall (λ r : row, length r = length headers) rows)
         [datasets d; training d; samplers d; evaluators d; metrics d].
Proof.
  intros Hfmt.
  assert (H : ∀ submodule rows headers fmt,
             EchoTable rows headers fmt ∈ (listing d tablefmt submodule).1 →
             Forall (λ r : row, length r = length headers) rows).
  { intros submodule rows headers fmt. unfold listing.
    rewrite consume_table.
    destruct (raised (_get_lines d tablefmt submodule)); simpl;
      [by intros ?%elem_of_nil|].
    intros [= -> -> ->]%list_elem_of_singleton.
    apply run_gen_yielded. intros [name v] r.
    by apply get_line_headers_arity. }
  repeat constructor; apply H.
Qed.

Lemma plain_github_listings_rows_match_headers_witness :
  Forall (λ command : string → io unit,
            ∀ rows headers fmt,
              EchoTable rows headers fmt ∈ (command "github").1 →
              Forall (λ r : row, length r = length headers) rows)
         [datasets {["rank" := undocumented]};
          training {["rank" := undocumented]};
          samplers {["rank" := undocumented]};
          evaluators {["rank" := undocumented]};
          metrics {["rank" := undocumented]}].
Proof.
  apply (plain_github_listings_rows_match_headers
           {["rank" := undocumented]} "github").
  right. reflexivity.
Defined.

(** X12: whatever the registries, what [github_readme] writes is a
    prefix of the five sections, in their order; it returns exactly when
    none of the five [github] projections raises, and has then written
    all five; when the projection of a section is the first to raise,
    the command raises the same exception after writing the sections
    before it and the header of that section, and nothing more. *)
Theorem github_readme_writes_sections_in_order
    (models_dict data_sets training_dict evaluators_dict metrics_dict
       : gmap string component) :
  let readme := github_readme models_dict data_sets training_dict
                              evaluators_dict metrics_dict in
  let gm := _get_model_lines models_dict "github" in
  let gd := _get_lines data_sets "github" "datasets" in
  let gt := _get_lines training_dict "github" "training" in
  let ge := _get_lines evaluators_dict "github" "evaluators" in
  let gx := _get_lines metrics_dict "github" "evaluators" in
  let sections := five_sections (yielded gm) (yielded gd) (yielded gt)
                                (yielded ge) (yielded gx) in
  let description_headers := ["Name"; "Reference"; "Description"] in
  let models_table :=
    EchoTable (yielded gm) ["Name"; "Reference"; "Citation"] "github" in
  let datasets_table := EchoTable (yielded gd) description_headers "github" in
  let training_table := EchoTable (yielded gt) description_headers "github" in
  let evaluators_table := EchoTable (yielded ge) description_headers "github" in
  let models_header := Echo ("### Models" +:+ nl) in
  let datasets_header := Echo (nl +:+ "### Data Sets" +:+ nl) in
  let training_header := Echo (nl +:+ "### Training Modes" +:+ nl) in
  let evaluators_header := Echo (nl +:+ "### Evaluators" +:+ nl) in
  let metrics_header := Echo (nl +:+ "### Metrics" +:+ nl) in
  readme.1 `prefix_of` sections
  ∧ (readme.2 = Ok tt
     ↔ raised gm = None ∧ raised gd = None ∧ raised gt = None
       ∧ raised ge = None ∧ raised gx = None)
  ∧ (readme.2 = Ok tt → readme.1 = sections)
  ∧ (∀ e, raised gm = Some e → readme = ([models_header], Raise e))
  ∧ (∀ e, raised gm = None → raised gd = Some e →
       readme = ([models_header; models_table; datasets_header], Raise e))
  ∧ (∀ e, raised gm = None → raised gd = None → raised gt = Some e →
       readme = ([models_header; models_table; datasets_header;
                  datasets_table; training_header], Raise e))
  ∧ (∀ e, raised gm = None → raised gd = None → raised gt = None →
       raised ge = Some e →
       readme = ([models_header; models_table; datasets_header;
                  datasets_table; training_header; training_table;
                  evaluators_header], Raise e))
  ∧ (∀ e, raised gm = None → raised gd = None → raised gt = None →
       raised ge = None → raised gx = Some e →
       readme = ([models_header; models_table; datasets_header;
                  datasets_table; training_header; training_table;
                  evaluators_header; evaluators_table; metrics_header],
                 Raise e)).
Proof.
  intros readme gm gd gt ge gx sections description_headers
    models_table datasets_table training_table evaluators_table
    models_header datasets_header training_header evaluators_header
    metrics_header.
  subst readme sections description_headers
    models_table datasets_table training_table evaluators_table
    models_header datasets_header training_header evaluators_header
    metrics_header.
  unfold github_readme, models, datasets, training, evaluators, metrics,
    listing, five_sections.
  rewrite !consume_table. fold gm gd gt ge gx.
  destruct (raised gm) as [em|];
    [|destruct (raised gd) as [ed|];
      [|destruct (raised gt) as [et|];
        [|destruct (raised ge) as [ee|];
          [|destruct (raised gx) as [ex|]]]]];
    simpl; (split; [by eexists|]); (split; [naive_solver|]);
    (split; [done|]); repeat split; intros;
    change (model_headers "github") with ["Name"; "Reference"; "Citation"];
    change (listing_headers "github")
      with ["Name"; "Reference"; "Description"];
    congruence.
Qed.

(** ** The order of the rows *)

(** X13: sorting any listing of the items of a registry gives the same
    list: the rows do not depend on the order in which the entries were
    put into the registry. *)
Theorem sorted_items_any_insertion_order
    (d : gmap string component) (items : list (string * component)) :
  items ≡ₚ map_to_list d →
  merge_sort item_le items = sorted_items d.
Proof.
  intros Hp. apply sorted_items_unique.
  - by rewrite merge_sort_Permutation.
  - apply Sorted_merge_sort, _.
Qed.

Lemma sorted_items_any_insertion_order_witness :
  merge_sort item_le [("TransE", transe); ("Smith", smith_model)]
  = sorted_items (<["Smith" := smith_model]> {["TransE" := transe]})
  ∧ merge_sort item_le [("Smith", smith_model); ("TransE", transe)]
    = sorted_items (<["Smith" := smith_model]> {["TransE" := transe]}).
Proof.
  split; apply sorted_items_any_insertion_order.
  - vm_compute. first [reflexivity | apply perm_swap].
  - vm_compute. first [reflexivity | apply perm_swap].
Defined.

(** ** The first documentation line *)

Lemma splitlines_acc_head cur s line more :
  Py.splitlines_acc cur s = line :: more →
  ∃ p rest,
    s = p +:+ rest ∧ line = String.rev_app cur p ∧ no_linebreak p = true
    ∧ (rest = EmptyString
       ∨ ∃ c rest', rest = String c rest' ∧ Py.is_linebreak c = true).
Proof.
  revert cur. induction s as [|c s IH]; intros cur; simpl.
  - destruct cur; [done|]. intros [= <- _].
    exists EmptyString, EmptyString. by eauto.
  - destruct (Py.is_linebreak c) eqn:Ec.
    + intros E. exists EmptyString, (String c s).
      split; [done|]. split; [|split; [done|right; by eauto]].
      destruct s as [|c' s']; [by injection E as <-|].
      destruct (Py.is_cr c && Py.is_lf c'); by injection E as <- _.
    + intros (p & rest & -> & -> & Hp & Hrest)%IH.
      exists (String c p), rest. split; [done|]. split; [done|].
      split; [|done]. simpl. by rewrite Ec, Hp.
Qed.

(** X14: the line a row is made from is the documentation string up to
    its first line boundary: it contains no line boundary, and what
    follows it in the documentation string is nothing or starts with
    one. *)
Theorem first_line_up_to_line_boundary (doc line : string) :
  first_line (Some doc) = Ok line →
  ∃ rest,
    doc = line +:+ rest ∧ no_linebreak line = true
    ∧ (rest = EmptyString
       ∨ ∃ c rest', rest = String c rest' ∧ Py.is_linebreak c = true).
Proof.
  simpl. destruct (Py.splitlines doc) as [|l more] eqn:E; [done|].
  intros [= ->].
  apply splitlines_acc_head in E as (p & rest & -> & -> & Hp & Hrest).
  by exists rest.
Qed.

Lemma first_line_up_to_line_boundary_witness :
  ∃ rest,
    "An evaluator." +:+ String "010" "    More text."
    = "An evaluator." +:+ rest
    ∧ no_linebreak "An evaluator." = true
    ∧ (rest = EmptyString
       ∨ ∃ c rest', rest = String c rest' ∧ Py.is_linebreak c = true).
Proof.
  apply (first_line_up_to_line_boundary
           ("An evaluator." +:+ String "010" "    More text.")
           "An evaluator.").
  reflexivity.
Defined.

(** ** Citations, again *)

Lemma slice_adjusted pre mid rest a b :
  Py.adjust (Py.len (pre +:+ mid +:+ rest)) a = Py.len pre →
  Py.adjust (Py.len (pre +:+ mid +:+ rest)) b = Py.len pre + Py.len mid →
  Py.slice (pre +:+ mid +:+ rest) a b = mid.
Proof.
  intros Ha Hb. unfold Py.slice. rewrite Ha, Hb.
  replace (Z.to_nat (Py.len pre)) with (String.length pre)
    by (unfold Py.len; lia).
  replace (Z.to_nat (Py.len pre + Py.len mid - Py.len pre))
    with (String.length mid) by (unfold Py.len; lia).
  apply substring_append.
Qed.

(** X15: for a line of at least five characters without brackets, of
    the form [body + year + last] with four characters in [year] and one
    in [last], both searches give -1 and the slices count from the end:
    the author is [body], the line without its last five characters, and
    the year is [year], the four characters before the last one. *)
Theorem author_year_without_brackets (body year last : string) :
  Py.find "[" (body +:+ year +:+ last) = -1 →
  Py.find "]" (body +:+ year +:+ last) = -1 →
  Py.len year = 4 → Py.len last = 1 →
  author_year (body +:+ year +:+ last) = (body, year).
Proof.
  intros Hl Hr Hy Hc. unfold author_year. rewrite Hl, Hr.
  change (1 + -1) with 0. change (-1 - 4) with (-5).
  pose proof (len_nonneg body).
  f_equal.
  - change (body +:+ year +:+ last)
      with (EmptyString +:+ body +:+ (year +:+ last)).
    apply slice_adjusted; rewrite append_nil, !len_append, Hy, Hc;
      change (Py.len "") with 0; unfold Py.adjust; simpl; lia.
  - apply slice_adjusted; rewrite !len_append, Hy, Hc;
      unfold Py.adjust; simpl; lia.
Qed.

Lemma author_year_without_brackets_witness :
  author_year ("A model with no cit" +:+ "atio" +:+ "n")
  = ("A model with no cit", "atio").
Proof.
  apply (author_year_without_brackets "A model with no cit" "atio" "n");
    reflexivity.
Defined.

Lemma author_year_citation pre author year post :
  Py.find "[" pre = -1 → Py.find "]" pre = -1 →
  Py.find "]" author = -1 → Py.find "]" year = -1 →
  Py.len year = 4 →
  author_year (pre +:+ "[" +:+ author +:+ year +:+ "]" +:+ post)
  = (author, year).
Proof.
  intros Hl Hr Ha Hy Hlen. unfold author_year.
  destruct (find_brackets pre (author +:+ year) post) as [El Er];
    [done|done|by apply find_append_absent|].
  rewrite append_assoc in El, Er. rewrite El, Er.
  pose proof (len_nonneg pre). pose proof (len_nonneg author).
  f_equal.
  - replace (pre +:+ "[" +:+ author +:+ year +:+ "]" +:+ post)
      with ((pre +:+ "[") +:+ author +:+ (year +:+ "]" +:+ post))
      by (by rewrite !append_assoc).
    apply slice_adjusted; repeat rewrite len_append; rewrite Hlen;
      change (Py.len "[") with 1; change (Py.len "]") with 1;
      pose proof (len_nonneg post);
      (rewrite adjust_inside; lia).
  - replace (pre +:+ "[" +:+ author +:+ year +:+ "]" +:+ post)
      with ((pre +:+ "[" +:+ author) +:+ year +:+ ("]" +:+ post))
      by (by rewrite !append_assoc).
    apply slice_adjusted; repeat rewrite len_append; rewrite Hlen;
      change (Py.len "[") with 1; change (Py.len "]") with 1;
      pose proof (len_nonneg post);
      (rewrite adjust_inside; lia).
Qed.

(** X16: for a first line [pre + '[' + author + year + ']' + post] where
    [pre] has no bracket, [author] and [year] no ']' and [year] four
    characters, the [github] row of the model is (name,
    `poem.models.<name>`, capitalized author + ' *et al.*, ' + year),
    the capitalized author being what [str.capitalize] gives.  (When the
    capital of the first character of the author is not below 256 the
    field is a [str] that [string] cannot hold.) *)
Theorem github_model_row
    (pre author year post name : string) (model : component) :
  Py.find "[" pre = -1 → Py.find "]" pre = -1 →
  Py.find "]" author = -1 → Py.find "]" year = -1 →
  Py.len year = 4 →
  first_line (__doc__ model)
    = Ok (pre +:+ "[" +:+ author +:+ year +:+ "]" +:+ post) →
  model_line "github" name model
  = Ok [Str name; Str ("`poem.models." +:+ name +:+ "`");
        match Py.capitalize author with
        | Some capitalized => Str (capitalized +:+ " *et al.*, " +:+ year)
        | None => StrWide
        end].
Proof.
  intros Hl Hr Ha Hy Hlen Hdoc. unfold model_line.
  rewrite Hdoc, author_year_citation by done. reflexivity.
Qed.

Lemma github_model_row_witness :
  model_line "github" "TransE" transe
  = Ok [Str "TransE"; Str "`poem.models.TransE`";
        Str "Bordes *et al.*, 2013"].
Proof.
  apply (github_model_row "An implementation of TransE " "bordes" "2013"
           "_." "TransE" transe); reflexivity.
Defined.

Lemma length_substring_le n m s :
  (String.length (String.substring n m s) ≤ m)%nat.
Proof.
  revert n m. induction s as [|c s IH]; intros n m.
  - destruct n, m; simpl; lia.
  - destruct n as [|n].
    + destruct m as [|m]; simpl; [lia|]. specialize (IH 0%nat m). lia.
    + simpl. apply IH.
Qed.

(** X17: whatever the line, with or without brackets, the year taken
    from it has at most four characters. *)
Theorem year_at_most_four_characters (line : string) :
  (String.length (author_year line).2 ≤ 4)%nat.
Proof.
  unfold author_year, Py.slice. simpl.
  etrans; [apply length_substring_le|].
  pose proof (len_nonneg line). unfold Py.adjust.
  destruct (Z.ltb_spec (Py.find "]" line - 4) 0),
    (Z.ltb_spec (Py.find "]" line) 0); lia.
Qed.

(** ** The rows of the [github] projection *)

(** X18: in the [github] projection of a registry without an empty
    documentation string, an entry with a [__name__] and a documentation
    string gets the row (name, `poem.<submodule>.<__name__>`, first
    documentation line): the reference is made from [__name__], not from
    the name in the registry; any other entry, and so every entry without
    [__name__], gets the row (name, `poem.<submodule>.<name>`,
    documentation of its type), its own documentation string is not
    looked at. *)
Theorem github_rows_by_entry
    (d : gmap string component) (submodule name : string) (v : component) :
  map_Forall (λ _ v, __doc__ v ≠ Some EmptyString) d →
  d !! name = Some v →
  match __name__ v, first_line (__doc__ v) with
  | Some ref, Ok line =>
      [Str name; Str ("`poem." +:+ submodule +:+ "." +:+ ref +:+ "`");
       Str line]
  | _, _ =>
      [Str name; Str ("`poem." +:+ submodule +:+ "." +:+ name +:+ "`");
       opt_val (__class__doc__ v)]
  end ∈ yielded (_get_lines d "github" submodule).
Proof.
  intros Hd Hv.
  assert (Hr : raised (_get_lines d "github" submodule) = None).
  { apply run_gen_raised_None, Forall_forall.
    intros [name' v'] Hv'%sorted_items_lookup.
    destruct (get_line_github_total submodule name' v') as [r [Hr _]];
      [by apply (Hd name')|by eexists]. }
  apply (run_gen_elem_of _ _ (name, v)); [done|by apply sorted_items_lookup|].
  unfold get_line. simpl.
  destruct (__name__ v) as [ref|]; [|done].
  destruct (first_line (__doc__ v)) as [line|e] eqn:E; [done|].
  apply first_line_raises in E as [[_ ->]|[E _]]; [done|].
  by destruct (Hd name v Hv).
Qed.

Lemma github_rows_by_entry_witness :
  [Str "rank"; Str ("`poem." +:+ "evaluators" +:+ "." +:+ "rank" +:+ "`");
   Str "A metric."]
  ∈ yielded (_get_lines
               (<["rank" := {| __name__ := None;
                               __doc__ := Some "Its own text.";
                               __class__doc__ := Some "A metric." |}]>
                  {["transe" := transe]}) "github" "evaluators").
Proof.
  apply (github_rows_by_entry
           (<["rank" := {| __name__ := None;
                           __doc__ := Some "Its own text.";
                           __class__doc__ := Some "A metric." |}]>
              {["transe" := transe]}) "evaluators" "rank"
           {| __name__ := None; __doc__ := Some "Its own text.";
              __class__doc__ := Some "A metric." |}).
  - apply map_Forall_insert_2; [discriminate|].
    apply map_Forall_singleton. discriminate.
  - reflexivity.
Defined.

Example github_rows_example :
  yielded (_get_lines
             (<["rank" := instance_of_documented_type]>
                {["transe" := transe]}) "github" "evaluators")
  = [[Str "rank"; Str "`poem.evaluators.rank`"; Str "An evaluator."];
     [Str "transe"; Str "`poem.evaluators.TransE`";
      Str "An implementation of TransE [bordes2013]_."]].
Proof. vm_compute. reflexivity. Qed.

(** ** The [parameters] command, again *)

Lemma echo_usage_nil i usage : echo_usage i usage = [] ↔ usage = [].
Proof. destruct usage as [|[name values] usage]; simpl; naive_solver. Qed.

(** X19: [parameters] writes its title and nothing else exactly when
    every name in [_hyperparameter_usage] is an annotated parameter of
    the constructor of [BaseModule] or 'init'; in particular when the
    mapping is empty. *)
Theorem parameters_title_only_iff
    (init_annotations : gset string)
    (_hyperparameter_usage : gmap string (gset string)) :
  (parameters init_annotations _hyperparameter_usage).1
  = [Echo "Names of __init__() parameters in all classes:"]
  ↔ ∀ name, is_Some (_hyperparameter_usage !! name) →
      name ∈ init_annotations ∨ name = "init".
Proof.
  unfold parameters. simpl. split.
  - intros [= E]. apply echo_usage_nil in E.
    intros name [values Hv].
    destruct (decide (name ∈ init_annotations)) as [|Hn]; [by left|].
    destruct (decide (name = "init")) as [|Hi]; [by right|].
    assert (Hin : (name, values)
              ∈ _hyperparemeter_usage init_annotations _hyperparameter_usage)
      by (by apply hyperparemeter_usage_elem_of).
    rewrite E in Hin. by apply elem_of_nil in Hin.
  - intros H. f_equal. apply echo_usage_nil.
    destruct (_hyperparemeter_usage init_annotations _hyperparameter_usage)
      as [|[name values] l] eqn:E; [done|].
    assert (Hin : (name, values)
              ∈ _hyperparemeter_usage init_annotations _hyperparameter_usage)
      by (rewrite E; left).
    apply hyperparemeter_usage_elem_of in Hin as (Hv & Hn & Hi).
    destruct (H name) as [?|?]; [by eexists|done|done].
Qed.

(** ** The [github] fallback and the renderer *)

(** C6 (amended): the [github] projection of a non-model registry raises
    only when some entry has both a [__name__] and an empty documentation
    string, and then [IndexError].  When it does not raise, the listing
    command hands every yielded row to [tabulate], and an entry whose own
    documentation string is missing, or that has no [__name__], has the
    row (name, `poem.<submodule>.<name>`, documentation of its type)
    among them; when the documentation of the type is missing too, the
    third field of that row is [None]: no failure is raised. *)
Theorem github_missing_doc_falls_back
    (d : gmap string component) (submodule : string) :
  (raised (_get_lines d "github" submodule) = None
   ↔ map_Forall (λ _ v, ¬ (is_Some (__name__ v)
                           ∧ __doc__ v = Some EmptyString)) d)
  ∧ (∀ e, raised (_get_lines d "github" submodule) = Some e → e = IndexError)
  ∧ (raised (_get_lines d "github" submodule) = None →
     listing d "github" submodule
     = ([EchoTable (yielded (_get_lines d "github" submodule))
                   ["Name"; "Reference"; "Description"] "github"], Ok tt)
     ∧ ∀ name v, d !! name = Some v →
         __doc__ v = None ∨ __name__ v = None →
         [Str name; Str ("`poem." +:+ submodule +:+ "." +:+ name +:+ "`");
          opt_val (__class__doc__ v)]
         ∈ yielded (_get_lines d "github" submodule)).
Proof.
  split; [split|split].
  - intros Hr name v Hv [[ref Hn] Hd]. unfold _get_lines in Hr.
    rewrite run_gen_raised_None, Forall_forall in Hr.
    apply sorted_items_lookup in Hv. destruct (Hr _ Hv) as [a Ha].
    unfold get_line in Ha. simpl in Ha. by rewrite Hn, Hd in Ha.
  - intros Hd. apply run_gen_raised_None, Forall_forall.
    intros [name v] Hv%sorted_items_lookup.
    destruct (get_line "github" submodule name v) as [r|e] eqn:E;
      [by eexists|].
    apply get_line_github_raises in E as (_ & ? & ?).
    by destruct (Hd name v Hv).
  - intros e ([name v] & _ & Hx)%run_gen_raised_Some.
    by apply get_line_github_raises in Hx as [-> _].
  - intros Hr. split.
    + unfold listing. by rewrite consume_table, Hr.
    + intros name v Hv Hmissing.
      apply (run_gen_elem_of _ _ (name, v));
        [done|by apply sorted_items_lookup|].
      destruct Hmissing as [Hdoc|Hname].
      * by apply get_line_github_fallback.
      * unfold get_line. simpl. by rewrite Hname.
Qed.

(** An instance of an undocumented class, and an entry without
    [__name__] whose own documentation string is empty: both take the
    fallback, nothing is raised. *)
Example github_fallback_rows :
  datasets (<["rank" := {| __name__ := None;
                           __doc__ := Some EmptyString;
                           __class__doc__ := Some "A metric." |}]>
              {["m" := undocumented]}) "github"
  = ([EchoTable [[Str "m"; Str "`poem.datasets.m`"; PyNone];
                 [Str "rank"; Str "`poem.datasets.rank`"; Str "A metric."]]
                ["Name"; "Reference"; "Description"] "github"], Ok tt).
Proof. vm_compute. reflexivity. Qed.

(** ** Headers and fields in an unrecognized format *)

(** C10, as stated, fails: with a class without a docstring in the
    registry the command raises [AttributeError] and renders no table. *)
Lemma unknown_format_undocumented_no_table :
  ¬ (∀ (d : gmap string component) (tablefmt : string),
       tablefmt ≠ "plain" → tablefmt ≠ "rst" → tablefmt ≠ "github" →
       ∃ rows,
         datasets d tablefmt
         = ([EchoTable rows ["Name"; "Reference"; "Description"] tablefmt],
            Ok tt)
         ∧ Forall (λ r : row, length r = 2%nat) rows).
Proof.
  intros H.
  destruct (H {["m" := undocumented_class]} "simple") as (rows & E & _);
    [discriminate..|].
  vm_compute in E. discriminate.
Qed.

Example datasets_simple_undocumented :
  datasets {["m" := undocumented_class]} "simple"
  = ([], Raise AttributeError).
Proof. vm_compute. reflexivity. Qed.

Lemma listing_unknown_format d tablefmt submodule :
  tablefmt ≠ "plain" → tablefmt ≠ "rst" → tablefmt ≠ "github" →
  (map_Forall (λ _ v, documented v) d →
   ∃ rows,
     listing d tablefmt submodule
     = ([EchoTable rows ["Name"; "Reference"; "Description"] tablefmt],
        Ok tt)
     ∧ length rows = size d
     ∧ Forall2 (λ (r : row) (entry : string * component),
                  ∃ line, first_line (__doc__ entry.2) = Ok line
                          ∧ r = [Str entry.1; Str line])
               rows (sorted_items d))
  ∧ (¬ map_Forall (λ _ v, documented v) d →
     ∃ e, listing d tablefmt submodule = ([], Raise e)).
Proof.
  intros H0 H1 H2.
  pose proof H0 as E0%String.eqb_neq. pose proof H1 as E1%String.eqb_neq.
  pose proof H2 as E2%String.eqb_neq.
  unfold listing, listing_headers. rewrite consume_table, E0.
  split.
  - intros Hd.
    destruct (run_gen_Forall2
                (λ (r : row) (entry : string * component),
                   ∃ line, first_line (__doc__ entry.2) = Ok line
                           ∧ r = [Str entry.1; Str line])
                (λ '(name, v), get_line tablefmt submodule name v)
                (sorted_items d)) as [Hr Hy].
    { apply Forall_forall. intros [name v] Hv%sorted_items_lookup.
      destruct (first_line_documented v) as [line El]; [by apply (Hd name)|].
      exists [Str name; Str line]. split; [|by exists line].
      unfold get_line. by rewrite E1, E2, El. }
    fold (_get_lines d tablefmt submodule) in Hr, Hy. rewrite Hr.
    eexists. split; [done|]. split; [|done].
    apply Forall2_length in Hy. by rewrite Hy, sorted_items_length.
  - intros Hn.
    destruct (first_line_outcome d (get_line tablefmt submodule)) as [Hiff _].
    { intros name v.
      pose proof (get_line_plain_first_line tablefmt submodule name v H1 H2)
        as H.
      destruct (get_line _ _ _ _), (first_line _); done. }
    fold (_get_lines d tablefmt submodule) in Hiff.
    destruct (raised (_get_lines d tablefmt submodule)) as [e|];
      [by exists e|].
    destruct Hn. by apply Hiff.
Qed.

(** C10 (amended): with a format other than [plain], [rst] and [github],
    each of [datasets], [training], [samplers], [evaluators] and
    [metrics], on a registry whose entries all have a documentation
    string with a first line, returns after writing one table with the
    three headers Name, Reference, Description whose rows, one per entry
    in ascending order of name, have the two fields (name, first
    documentation line). *)
Theorem unknown_format_headers_rows_disagree
    (d : gmap string component) (tablefmt : string) :
  tablefmt ≠ "plain" → tablefmt ≠ "rst" → tablefmt ≠ "github" →
  map_Forall (λ _ v, documented v) d →
  Forall (λ command : string → io unit,
            ∃ rows,
              command tablefmt
              = ([EchoTable rows ["Name"; "Reference"; "Description"]
                            tablefmt], Ok tt)
              ∧ length rows = size d
              ∧ Forall2 (λ (r : row) (entry : string * component),
                           ∃ line, first_line (__doc__ entry.2) = Ok line
                                   ∧ r = [Str entry.1; Str line])
                        rows (sorted_items d))
         [datasets d; training d; samplers d; evaluators d; metrics d].
Proof.
  intros H0 H1 H2 Hd.
  repeat constructor; by apply listing_unknown_format.
Qed.

Lemma unknown_format_headers_rows_disagree_witness :
  let d : gmap string component :=
    <["TransE" := transe]> {["Smith" := smith_model]} in
  Forall (λ command : string → io unit,
            ∃ rows,
              command "simple"
              = ([EchoTable rows ["Name"; "Reference"; "Description"]
                            "simple"], Ok tt)
              ∧ length rows = size d
              ∧ Forall2 (λ (r : row) (entry : string * component),
                           ∃ line, first_line (__doc__ entry.2) = Ok line
                                   ∧ r = [Str entry.1; Str line])
                        rows (sorted_items d))
         [datasets d; training d; samplers d; evaluators d; metrics d].
Proof.
  intros d. apply (unknown_format_headers_rows_disagree d "simple");
    [discriminate..|].
  apply map_Forall_insert_2; [apply documented_transe|].
  apply map_Forall_singleton. eexists. split; [reflexivity|discriminate].
Defined.

Example datasets_simple_documented :
  datasets (<["TransE" := transe]> {["Smith" := smith_model]}) "simple"
  = ([EchoTable
        [[Str "Smith"; Str "An implementation of Smith [smith2020]"];
         [Str "TransE"; Str "An implementation of TransE [bordes2013]_."]]
        ["Name"; "Reference"; "Description"] "simple"], Ok tt).
Proof. vm_compute. reflexivity. Qed.
